(** * Microblog: the four CRUD routes of [app.js] over a Mongoose model

    [app.js] registers four Express handlers that each make one call on the
    Mongoose model [Post], send one HTTP response and (on most paths) write
    one log entry through winston.  The handlers are embedded here as
    programs of a small state/exception/writer monad; the Mongoose
    collection they talk to is a finite map from identifiers to stored
    fields. *)

From Stdlib Require Import NArith Ascii String List Lia.
From stdpp Require Import base option list gmap strings fin_maps.

Local Open Scope string_scope.
Local Open Scope N_scope.

(** ** Identifiers

    An ObjectId is a 96-bit value; on the wire (in JSON bodies and in the
    [:postId] path parameter) it is written as 24 hexadecimal digits. *)

Abbreviation ObjectId := N (only parsing).

Definition lowerAscii (c : ascii) : ascii :=
  let n := N_of_ascii c in
  if (65 <=? n) && (n <=? 90) then ascii_of_N (n + 32) else c.

Definition hexAlphabet : list ascii := list_ascii_of_string "0123456789abcdef".

Definition hexDigit (d : N) : ascii := nth (N.to_nat d) hexAlphabet "f"%char.

Fixpoint indexOf (c : ascii) (l : list ascii) (i : N) : option N :=
  match l with
  | [] => None
  | x :: l' => if Ascii.eqb c x then Some i else indexOf c l' (i + 1)
  end.

(** Upper-case and lower-case digits are both read. *)
Definition hexValue (c : ascii) : option N := indexOf (lowerAscii c) hexAlphabet 0.

(** Digits least significant first. *)
Fixpoint hexDigits (width : nat) (n : N) : list ascii :=
  match width with
  | O => []
  | S k => hexDigit (n mod 16) :: hexDigits k (n / 16)
  end.

Fixpoint hexNumber (ds : list ascii) : option N :=
  match ds with
  | [] => Some 0
  | c :: ds' =>
      match hexValue c, hexNumber ds' with
      | Some v, Some r => Some (v + 16 * r)
      | _, _ => None
      end
  end.

(** [ObjectId.prototype.toHexString]: what [res.send] puts in the JSON body
    for [_id]. *)
Definition showObjectId (oid : ObjectId) : string :=
  string_of_list_ascii (rev (hexDigits 24 oid)).

(** The cast Mongoose applies to the [_id] of a query filter: a string of 24
    hexadecimal digits is an identifier, anything else is a cast failure.
    (The 12-character byte strings that older drivers also read as
    identifiers are not modelled.) *)
Definition castObjectId (s : string) : option ObjectId :=
  if Nat.eqb (String.length s) 24
  then hexNumber (rev (list_ascii_of_string s))
  else None.

Definition objectIdBound : N := 16 ^ 24.

(** ** Documents

    [mongoose.model('Post', { title: String, content: String })]: a stored
    post has an [_id] and the two schema paths, each of which may be absent,
    [null] or a string.  The version key [__v] Mongoose adds is left out. *)

Inductive Field :=
  | Missing
  | Null
  | Text (s : string).

Record Fields := mkFields { f_title : Field; f_content : Field }.

Record Document := mkDocument { _id : ObjectId; title : Field; content : Field }.

Definition document (oid : ObjectId) (f : Fields) : Document :=
  {| _id := oid; title := f_title f; content := f_content f |}.

(** ** Request bodies

    [bodyParser.json()] hands the handler a parsed JSON object.  The schema is
    strict, so only the keys [title] and [content] of [req.body] are looked
    at; a body is modelled by what it holds under those two keys.  Bodies
    that carry [_id], [__v] or update operators ([$set], [$unset], ...) are
    outside this type.  A JSON number is kept as the text [String(n)] gives,
    which is all the String schema type observes of it; of an object only
    the string under its key [_id] is kept, when it has one, and of an array
    nothing.  Mongoose goes through the keys of the body in the order they
    are written, so a body also records which of its two keys comes
    first. *)

Inductive json :=
  | JNull
  | JBool (b : bool)
  | JNum (shown : string)
  | JStr (s : string)
  | JArr
  | JObj (id_key : option string).

Record Body := mkOrderedBody {
  body_title : option json;
  body_content : option json;
  body_content_first : bool   (* is [content] written before [title]? *)
}.

(** A body written with [title] first. *)
Definition mkBody (t c : option json) : Body := mkOrderedBody t c false.

(** The String schema type's cast: strings stay, numbers and booleans are
    printed, [null] stays [null]; an object that holds a non-empty string
    under [_id] is read as that string; any other object and every array is
    refused. *)
Definition castString (v : json) : option Field :=
  match v with
  | JNull => Some Null
  | JBool true => Some (Text "true")
  | JBool false => Some (Text "false")
  | JNum shown => Some (Text shown)
  | JStr s => Some (Text s)
  | JObj (Some (String c s)) => Some (Text (String c s))
  | JObj _ => None
  | JArr => None
  end.

(** ** Errors, events and the world *)

Inductive Error :=
  | CastError (path : string)
  | ValidationError (paths : list string)
  | DuplicateKeyError (oid : ObjectId)
  | StorageError (detail : string).

Inductive StoreOp := OpSave | OpFind | OpFindByIdAndUpdate | OpFindByIdAndDelete.

(** What is sent as a response body or attached to a log entry. *)
Inductive Payload :=
  | PEmpty
  | PPost (post : Document)
  | PPosts (posts : list Document)
  | PError (error : Error)
  | PMessage (message : string).

Inductive Level := level_info | level_error.

(** The observable effects of a handler, in the order the code performs
    them: a call on the model that the handler awaits, [res.status(c).send(b)],
    and [logger.info] / [logger.error]. *)
Inductive Event :=
  | Awaited (op : StoreOp)
  | Sent (status : N) (body : Payload)
  | Logged (level : Level) (message : string) (meta : Payload).

(** The world a handler runs in: the [posts] collection, the driver's
    identifier generator, and an oracle saying, for each coming call on the
    store, whether it fails for a reason of the store's own (connection lost,
    server error) and with which error.  An exhausted oracle means no more
    failures. *)
Record World := mkWorld {
  collection : gmap N Fields;
  objectIdCounter : ObjectId;
  faults : list (option Error)
}.

Definition setCollection (c : gmap N Fields) (w : World) : World :=
  {| collection := c; objectIdCounter := objectIdCounter w; faults := faults w |}.

Definition setCounter (n : ObjectId) (w : World) : World :=
  {| collection := collection w; objectIdCounter := n; faults := faults w |}.

Definition setFaults (fs : list (option Error)) (w : World) : World :=
  {| collection := collection w; objectIdCounter := objectIdCounter w; faults := fs |}.

(** ** The handler monad: state, exceptions, and a log of events *)

Inductive Result (A : Type) :=
  | Ok (a : A)
  | Throw (e : Error).
Arguments Ok {A} a.
Arguments Throw {A} e.

Record Outcome (A : Type) := mkOutcome {
  result : Result A;
  world : World;
  events : list Event
}.
Arguments mkOutcome {A} _ _ _.
Arguments result {A} _.
Arguments world {A} _.
Arguments events {A} _.

Definition M (A : Type) : Type := World -> Outcome A.

Definition M_ret {A} (a : A) : M A :=
  fun w => mkOutcome (Ok a) w [].

Definition M_bind {A B} (k : A -> M B) (m : M A) : M B :=
  fun w =>
    let o := m w in
    match result o with
    | Ok a => let o' := k a (world o) in
              mkOutcome (result o') (world o') (events o ++ events o')
    | Throw e => mkOutcome (Throw e) (world o) (events o)
    end.

#[export] Instance M_mret : MRet M := @M_ret.
#[export] Instance M_mbind : MBind M := @M_bind.

(** [try { m } catch (error) { h error }] *)
Definition try_catch {A} (m : M A) (h : Error -> M A) : M A :=
  fun w =>
    let o := m w in
    match result o with
    | Ok a => o
    | Throw e => let o' := h e (world o) in
                 mkOutcome (result o') (world o') (events o ++ events o')
    end.

Definition emit (e : Event) : M unit :=
  fun w => mkOutcome (Ok tt) w [e].

(** [res.status(code).send(body)] *)
Definition res_status_send (code : N) (body : Payload) : M unit :=
  emit (Sent code body).

Definition logger_info (message : string) (meta : Payload) : M unit :=
  emit (Logged level_info message meta).

Definition logger_error (message : string) (meta : Payload) : M unit :=
  emit (Logged level_error message meta).

(** A call on the model: what it resolves to or is rejected with, and the
    world it leaves. *)
Definition StoreCall (A : Type) : Type := World -> Result A * World.

(** The error, if any, with which the store fails the next call. *)
Definition nextFault (w : World) : option Error :=
  match faults w with
  | Some e :: _ => Some e
  | _ => None
  end.

(** The world once the oracle has been asked about one call. *)
Definition afterCall (w : World) : World := setFaults (tail (faults w)) w.

(** The part of a call that goes to the store: the oracle is asked and
    moves on by one; when it lets the call through, the operation runs
    against the collection. *)
Definition atStore {A} (operation : World -> Result A * World) : StoreCall A :=
  fun w =>
    match nextFault w with
    | Some e => (Throw e, afterCall w)
    | None => operation (afterCall w)
    end.

(** [await call] *)
Definition await {A} (op : StoreOp) (call : StoreCall A) : M A :=
  fun w => let (r, w') := call w in mkOutcome r w' [Awaited op].

(** ** The Mongoose model [Post] *)

(** A document built by [new Post(req.body)] and not yet saved: the fields
    as cast by the schema, and the paths whose value could not be cast
    (Mongoose keeps these and reports them when the document is saved). *)
Record NewPost := mkNewPost { np_doc : Document; np_invalid : list string }.

Definition castPath (path : string) (v : option json) : Field * list string :=
  match v with
  | None => (Missing, [])
  | Some j =>
      match castString j with
      | Some f => (f, [])
      | None => (Missing, [path])
      end
  end.

(** The document [new Post(req.body)] builds around a given identifier. *)
Definition newPost (oid : ObjectId) (body : Body) : NewPost :=
  let (t, et) := castPath "title" (body_title body) in
  let (c, ec) := castPath "content" (body_content body) in
  {| np_doc := {| _id := oid; title := t; content := c |};
     np_invalid := if body_content_first body then ec ++ et else et ++ ec |}.

(** [new Post(req.body)]: takes the next identifier of the generator and
    casts the body; touches neither the collection nor the oracle. *)
Definition Post_new (body : Body) : M NewPost :=
  fun w =>
    mkOutcome (Ok (newPost (objectIdCounter w) body))
              (setCounter (objectIdCounter w + 1) w) [].

(** What the store does with an insert that reaches it. *)
Definition insertOne (d : Document) : World -> Result unit * World :=
  fun w =>
    match collection w !! _id d with
    | Some _ => (Throw (DuplicateKeyError (_id d)), w)
    | None =>
        (Ok tt,
         setCollection
           (<[_id d := mkFields (title d) (content d)]> (collection w)) w)
    end.

(** [post.save()]: the document is validated first, and a document with a
    field that could not be cast is refused without the store being
    contacted. *)
Definition save (post : NewPost) : StoreCall unit :=
  fun w =>
    match np_invalid post with
    | _ :: _ => (Throw (ValidationError (np_invalid post)), w)
    | [] => atStore (insertOne (np_doc post)) w
    end.

(** The documents of the collection, as [Post.find()] returns them. *)
Definition find_docs (c : gmap N Fields) : list Document :=
  (fun p => document (fst p) (snd p)) <$> map_to_list c.

(** [Post.find()] *)
Definition find : StoreCall (list Document) :=
  atStore (fun w => (Ok (find_docs (collection w)), w)).

(** The update document Mongoose sends for a body: top-level keys that are
    not operators are wrapped in [$set], so each key of the body present
    replaces that path and an absent key leaves the path as stored. *)
Record SetUpdate := mkSetUpdate { set_title : option Field; set_content : option Field }.

Definition castSet (path : string) (v : option json) : Result (option Field) :=
  match v with
  | None => Ok None
  | Some j =>
      match castString j with
      | Some f => Ok (Some f)
      | None => Throw (CastError path)
      end
  end.

(** The keys are cast in the order the body has them, and the first one
    that cannot be cast is the one reported. *)
Definition castUpdate (body : Body) : Result SetUpdate :=
  if body_content_first body then
    match castSet "content" (body_content body) with
    | Throw e => Throw e
    | Ok c =>
        match castSet "title" (body_title body) with
        | Throw e => Throw e
        | Ok t => Ok (mkSetUpdate t c)
        end
    end
  else
    match castSet "title" (body_title body) with
    | Throw e => Throw e
    | Ok t =>
        match castSet "content" (body_content body) with
        | Throw e => Throw e
        | Ok c => Ok (mkSetUpdate t c)
        end
    end.

Definition applySet (u : SetUpdate) (f : Fields) : Fields :=
  {| f_title := default (f_title f) (set_title u);
     f_content := default (f_content f) (set_content u) |}.

(** What the store does with an update and with a removal that reach it. *)
Definition findOneAndUpdate (oid : ObjectId) (u : SetUpdate)
  : World -> Result (option Document) * World :=
  fun w =>
    match collection w !! oid with
    | None => (Ok None, w)
    | Some f =>
        let f' := applySet u f in
        (Ok (Some (document oid f')),
         setCollection (<[oid := f']> (collection w)) w)
    end.

Definition findOneAndDelete (oid : ObjectId)
  : World -> Result (option Document) * World :=
  fun w =>
    match collection w !! oid with
    | None => (Ok None, w)
    | Some f =>
        (Ok (Some (document oid f)),
         setCollection (delete oid (collection w)) w)
    end.

(** [Post.findByIdAndUpdate(postId, req.body, { new: true })]: resolves to
    the document after the update, or to [null] when the identifier matches
    nothing.  The identifier and then the update are cast first; a cast that
    fails refuses the call without the store being contacted. *)
Definition findByIdAndUpdate (postId : string) (body : Body)
  : StoreCall (option Document) :=
  fun w =>
    match castObjectId postId with
    | None => (Throw (CastError "_id"), w)
    | Some oid =>
        match castUpdate body with
        | Throw e => (Throw e, w)
        | Ok u => atStore (findOneAndUpdate oid u) w
        end
    end.

(** [Post.findByIdAndDelete(postId)]: resolves to the removed document, or
    to [null] when the identifier matches nothing; an identifier that cannot
    be cast refuses the call without the store being contacted. *)
Definition findByIdAndDelete (postId : string) : StoreCall (option Document) :=
  fun w =>
    match castObjectId postId with
    | None => (Throw (CastError "_id"), w)
    | Some oid => atStore (findOneAndDelete oid) w
    end.

(** ** The four route handlers of [app.js] *)

(** [app.post('/posts', ...)] *)
Definition app_post_posts (req_body : Body) : M unit :=
  try_catch
    (post ← Post_new req_body;
     await OpSave (save post);;
     res_status_send 201 (PPost (np_doc post));;
     logger_info "Создан новый пост:" (PPost (np_doc post)))
    (fun error =>
       res_status_send 400 (PError error);;
       logger_error "Ошибка создания поста:" (PError error)).

(** [app.get('/posts', ...)] *)
Definition app_get_posts : M unit :=
  try_catch
    (posts ← await OpFind find;
     res_status_send 200 (PPosts posts);;
     logger_info "Получены все посты:" (PPosts posts))
    (fun error =>
       res_status_send 500 (PError error);;
       logger_error "Ошибка получения постов:" (PError error)).

(** [app.put('/posts/:postId', ...)] *)
Definition app_put_posts_postId (postId : string) (req_body : Body) : M unit :=
  try_catch
    (post ← await OpFindByIdAndUpdate (findByIdAndUpdate postId req_body);
     match post with
     | None => res_status_send 404 (PMessage "Пост не найден")
     | Some post =>
         res_status_send 200 (PPost post);;
         logger_info "Пост обновлен:" (PPost post)
     end)
    (fun error =>
       res_status_send 400 (PError error);;
       logger_error "Ошибка обновления поста:" (PError error)).

(** [app.delete('/posts/:postId', ...)] *)
Definition app_delete_posts_postId (postId : string) : M unit :=
  try_catch
    (post ← await OpFindByIdAndDelete (findByIdAndDelete postId);
     match post with
     | None => res_status_send 404 (PMessage "Пост не найден")
     | Some post =>
         res_status_send 204 PEmpty;;
         logger_info "Пост удален:" (PPost post)
     end)
    (fun error =>
       res_status_send 500 (PError error);;
       logger_error "Ошибка удаления поста:" (PError error)).

(** ** Requests *)

Inductive Request :=
  | POST_posts (body : Body)
  | GET_posts
  | PUT_posts (postId : string) (body : Body)
  | DELETE_posts (postId : string).

Definition handler (r : Request) : M unit :=
  match r with
  | POST_posts body => app_post_posts body
  | GET_posts => app_get_posts
  | PUT_posts postId body => app_put_posts_postId postId body
  | DELETE_posts postId => app_delete_posts_postId postId
  end.

(** The world a request leaves behind, and a run of requests. *)
Definition serve (r : Request) (w : World) : World := world (handler r w).

Definition serveAll (rs : list Request) (w : World) : World :=
  fold_left (fun w r => serve r w) rs w.

(** What the client and the log see of one request. *)
Definition responses (es : list Event) : list (N * Payload) :=
  omap (fun e => match e with Sent c b => Some (c, b) | _ => None end) es.

Definition logEntries (es : list Event) : list (Level * string * Payload) :=
  omap (fun e => match e with Logged l m p => Some (l, m, p) | _ => None end) es.

Definition storeCalls (es : list Event) : list StoreOp :=
  omap (fun e => match e with Awaited op => Some op | _ => None end) es.

(** ** Routing

    Express keeps the registered routes and mounts in a stack and hands a
    request to the first layer whose method and path pattern match.  A
    pattern is compared segment by segment and without regard to case; a
    segment written [:name] stands for any non-empty segment; one trailing
    slash of the request path is ignored.  A route ([app.get], [app.post],
    ...) must match the whole path, a mount ([app.use]) a prefix of it made
    of whole segments.  When the path matches a pattern, Express decodes the
    segments that stand for parameters with [decodeURIComponent], before it
    looks at the method; a segment that cannot be decoded makes Express
    answer 400 itself, and no handler is run. *)

Inductive Method := GET | HEAD | POST | PUT | DELETE | OTHER.

Inductive Target :=
  | RoutePostPosts
  | RouteGetPosts
  | RoutePutPost
  | RouteDeletePost
  | SwaggerUi
  | BadRequest.   (* Express's own 400 for a parameter it cannot decode *)

Record Layer := mkLayer {
  layer_method : option Method;   (* [None]: any method ([app.use]) *)
  layer_path : string;
  layer_end : bool;               (* must the pattern match to the end? *)
  layer_target : Target
}.

Fixpoint lowerString (s : string) : string :=
  match s with
  | EmptyString => EmptyString
  | String c s' => String (lowerAscii c) (lowerString s')
  end.

(** The segments of a path: the pieces between slashes. *)
Fixpoint segments (s : string) : list string :=
  match s with
  | EmptyString => [EmptyString]
  | String c s' =>
      if Ascii.eqb c "/" then EmptyString :: segments s'
      else match segments s' with
           | [] => [String c EmptyString]
           | seg :: rest => String c seg :: rest
           end
  end.

(** The byte a percent escape [%hl] stands for. *)
Definition escapeByte (h l : ascii) : option N :=
  match hexValue h, hexValue l with
  | Some a, Some b => Some (16 * a + b)
  | _, _ => None
  end.

(** Does [decodeURIComponent] accept the string?  Every [%] must start an
    escape of two hexadecimal digits, and the escaped bytes of 128 and above
    must spell well-formed UTF-8.  [due] counts the continuation bytes still
    owed by the character being read, and [lo]..[hi] is the range the next
    of them must lie in. *)
Fixpoint decodableFrom (due : nat) (lo hi : N) (s : string) : bool :=
  match s with
  | EmptyString => Nat.eqb due 0
  | String c s1 =>
      if Ascii.eqb c "%" then
        match s1 with
        | String h (String l rest) =>
            match escapeByte h l with
            | None => false
            | Some b =>
                match due with
                | O =>
                    if b <? 128 then decodableFrom 0 128 191 rest
                    else if (194 <=? b) && (b <=? 223) then decodableFrom 1 128 191 rest
                    else if b =? 224 then decodableFrom 2 160 191 rest
                    else if b =? 237 then decodableFrom 2 128 159 rest
                    else if (225 <=? b) && (b <=? 239) then decodableFrom 2 128 191 rest
                    else if b =? 240 then decodableFrom 3 144 191 rest
                    else if (241 <=? b) && (b <=? 243) then decodableFrom 3 128 191 rest
                    else if b =? 244 then decodableFrom 3 128 143 rest
                    else false
                | S due' =>
                    if (lo <=? b) && (b <=? hi) then decodableFrom due' 128 191 rest
                    else false
                end
            end
        | _ => false
        end
      else
        match due with
        | O => decodableFrom 0 128 191 s1
        | S _ => false
        end
  end.

Definition decodable (s : string) : bool := decodableFrom 0 128 191 s.

(** How a pattern fares against a path. *)
Inductive Matching := NoMatch | Matched | MalformedParam.

Definition ofBool (b : bool) : Matching := if b then Matched else NoMatch.

(** Both parts must match; a parameter that cannot be decoded counts only
    when everything else matches. *)
Definition both (a b : Matching) : Matching :=
  match a, b with
  | NoMatch, _ | _, NoMatch => NoMatch
  | MalformedParam, _ | _, MalformedParam => MalformedParam
  | Matched, Matched => Matched
  end.

Definition matchSegment (pat seg : string) : Matching :=
  match pat with
  | String ":" _ =>
      if String.eqb seg EmptyString then NoMatch
      else if decodable seg then Matched else MalformedParam
  | _ => ofBool (String.eqb (lowerString pat) (lowerString seg))
  end.

Fixpoint matchSegments (to_end : bool) (pats segs : list string) : Matching :=
  match pats, segs with
  | [], [] => Matched
  | [], [s] => ofBool (negb to_end || String.eqb s EmptyString)
  | [], _ :: _ => ofBool (negb to_end)
  | _ :: _, [] => NoMatch
  | p :: pats', s :: segs' => both (matchSegment p s) (matchSegments to_end pats' segs')
  end.

Definition matchPath (to_end : bool) (pattern path : string) : Matching :=
  matchSegments to_end (segments pattern) (segments path).

Definition matchMethod (lm : option Method) (m : Method) : bool :=
  match lm, m with
  | None, _ => true
  | Some GET, (GET | HEAD) => true
  | Some HEAD, HEAD => true
  | Some POST, POST => true
  | Some PUT, PUT => true
  | Some DELETE, DELETE => true
  | _, _ => false
  end.

(** The path is matched, and its parameters decoded, before the method is
    looked at. *)
Definition matchLayer (l : Layer) (m : Method) (path : string) : Matching :=
  match matchPath (layer_end l) (layer_path l) path with
  | Matched => ofBool (matchMethod (layer_method l) m)
  | other => other
  end.

Fixpoint dispatch (stack : list Layer) (m : Method) (path : string) : option Target :=
  match stack with
  | [] => None
  | l :: stack' =>
      match matchLayer l m path with
      | Matched => Some (layer_target l)
      | MalformedParam => Some BadRequest
      | NoMatch => dispatch stack' m path
      end
  end.

(** The four routes, in the order [app.js] registers them. *)
Definition crudLayers : list Layer :=
  [ mkLayer (Some POST) "/posts" true RoutePostPosts;
    mkLayer (Some GET) "/posts" true RouteGetPosts;
    mkLayer (Some PUT) "/posts/:postId" true RoutePutPost;
    mkLayer (Some DELETE) "/posts/:postId" true RouteDeletePost ].

(** [app.use('`/api-docs`', swaggerUi.serve, swaggerUi.setup(swaggerSpec))]:
    the path argument as the source has it, backticks included. *)
Definition swaggerMount : string := "`/api-docs`".

Definition swaggerLayer : Layer := mkLayer None swaggerMount false SwaggerUi.

Definition appLayers : list Layer := crudLayers ++ [swaggerLayer].

(** ** Conditions on worlds and scenarios used in the statements *)

(** The store lets the next [n] calls through. *)
Definition storeAnswers (n : nat) (w : World) : bool :=
  forallb (fun f => match f with None => true | Some _ => false end)
          (firstn n (faults w)).

(** Every stored identifier was handed out by the generator. *)
Definition idsBelowCounter (w : World) : bool :=
  forallb (fun d => _id d <? objectIdCounter w) (find_docs (collection w)).

(** The status the [catch] block of each route answers with. *)
Definition catchStatus (r : Request) : N :=
  match r with
  | POST_posts _ | PUT_posts _ _ => 400
  | GET_posts | DELETE_posts _ => 500
  end.

(** The update as the specification words it: the post's fields are replaced
    by the supplied fields, so a path the caller omits ends up absent. *)
Definition spec_replaceFields (body : Body) : Fields :=
  {| f_title := fst (castPath "title" (body_title body));
     f_content := fst (castPath "content" (body_content body)) |}.

Definition spec_UpdateById_replaces (w : World) (postId : string) (body : Body) : Prop :=
  forall oid,
    castObjectId postId = Some oid ->
    is_Some (collection w !! oid) ->
    responses (events (handler (PUT_posts postId body) w))
    = [(200, PPost (document oid (spec_replaceFields body)))].

(** The specification's reading of the log order: an entry is written
    before the response goes out. *)
Fixpoint logBeforeResponse (es : list Event) : bool :=
  match es with
  | [] => false
  | Logged _ _ _ :: _ => true
  | Sent _ _ :: _ => false
  | Awaited _ :: es' => logBeforeResponse es'
  end.

(** The identifiers a client reads off the body of a listing. *)
Definition listedIds (es : list Event) : list string :=
  match responses es with
  | [(200, PPosts posts)] => (fun d => showObjectId (_id d)) <$> posts
  | _ => []
  end.

(** create, list, update the post listed first, delete it: the world left
    behind and the four responses. *)
Definition roundTrip (create update : Body) (w : World)
  : World * list (N * Payload) :=
  let o1 := handler (POST_posts create) w in
  let o2 := handler GET_posts (world o1) in
  match listedIds (events o2) with
  | postId :: _ =>
      let o3 := handler (PUT_posts postId update) (world o2) in
      let o4 := handler (DELETE_posts postId) (world o3) in
      (world o4,
       responses (events o1 ++ events o2 ++ events o3 ++ events o4))
  | [] => (world o2, responses (events o1 ++ events o2))
  end.

(** The error, if any, that the request's call on the model raises: a
    refusal by Mongoose (cast, validation), a failure of the store itself,
    or a refusal by the store (duplicate key). *)
Definition raised {A} (rw : Result A * World) : option Error :=
  match fst rw with
  | Throw e => Some e
  | Ok _ => None
  end.

Definition storeError (r : Request) (w : World) : option Error :=
  match r with
  | POST_posts body =>
      raised (save (newPost (objectIdCounter w) body)
                   (setCounter (objectIdCounter w + 1) w))
  | GET_posts => raised (find w)
  | PUT_posts postId body => raised (findByIdAndUpdate postId body w)
  | DELETE_posts postId => raised (findByIdAndDelete postId w)
  end.

(** The specification's count of log entries: one per request. *)
Definition spec_oneLogEntry (r : Request) (w : World) : Prop :=
  length (logEntries (events (handler r w))) = 1%nat.

(** ** Sample worlds *)

Definition emptyWorld : World := mkWorld ∅ 0 [].

(** One stored post, with identifier 7. *)
Definition blogWorld : World :=
  mkWorld {[ 7 := mkFields (Text "T") (Text "C") ]} 8 [].

(** The same, with the store failing the next call. *)
Definition downWorld : World :=
  setFaults [Some (StorageError "connect ECONNREFUSED 127.0.0.1:27017")] blogWorld.

Definition bodyTC : Body := mkBody (Some (JStr "T")) (Some (JStr "C")).

Definition bodyContentOnly : Body := mkBody None (Some (JStr "new")).

Definition bodyBadTitle : Body := mkBody (Some (JObj None)) (Some (JStr "C")).

(** ** Further notions used in the statements about whole runs *)

(** The call on the model each route makes. *)
Definition opOf (r : Request) : StoreOp :=
  match r with
  | POST_posts _ => OpSave
  | GET_posts => OpFind
  | PUT_posts _ _ => OpFindByIdAndUpdate
  | DELETE_posts _ => OpFindByIdAndDelete
  end.

(** The status each route answers with when its [try] block runs to the
    end. *)
Definition successStatus (r : Request) : N :=
  match r with
  | POST_posts _ => 201
  | GET_posts | PUT_posts _ _ => 200
  | DELETE_posts _ => 204
  end.

(** The identifier a request addresses, if it addresses one. *)
Definition targetOf (r : Request) : option ObjectId :=
  match r with
  | PUT_posts postId _ | DELETE_posts postId => castObjectId postId
  | POST_posts _ | GET_posts => None
  end.

(** The responses of a run of requests, in order. *)
Fixpoint runResponses (rs : list Request) (w : World) : list (N * Payload) :=
  match rs with
  | [] => []
  | r :: rs' => responses (events (handler r w)) ++ runResponses rs' (serve r w)
  end.

Definition countStatus (c : N) (l : list (N * Payload)) : nat :=
  length (filter (fun cb => fst cb = c) l).

(** The identifiers of the posts a run of requests reports as created. *)
Definition createdIds (l : list (N * Payload)) : list ObjectId :=
  omap (fun cb => match cb with
                  | (201, PPost post) => Some (_id post)
                  | _ => None
                  end) l.

Fixpoint noSlash (s : string) : bool :=
  match s with
  | EmptyString => true
  | String c s' => negb (Ascii.eqb c "/") && noSlash s'
  end.

(** ** The specification's words for requests that match no post *)

(** No stored post has the identifier the string stands for. *)
Definition matchesNoPost (w : World) (postId : string) : Prop :=
  forall oid, castObjectId postId = Some oid -> collection w !! oid = None.

(** [PUT /posts/{id}] with a well-formed id that matches no post is answered
    404. *)
Definition spec_put_unmatched_gives_404
    (w : World) (postId : string) (body : Body) : Prop :=
  castObjectId postId <> None ->
  matchesNoPost w postId ->
  exists b, responses (events (handler (PUT_posts postId body) w)) = [(404, b)].


(** ** The process

    [app.js] calls [mongoose.connect(...)] at its top level (lines 9 to 12)
    and drops the promise it gets: there is no [then], no [catch] and no
    [await].  Likewise Express drops the promise an [async] handler returns.
    A promise that rejects with nobody handling the rejection ends the Node
    process with exit code 1. *)






(** A body that writes [content] before [title], neither of them castable. *)
Definition bodyBothBadContentFirst : Body :=
  mkOrderedBody (Some JArr) (Some (JObj None)) true.

(** * Properties *)

(** ** Identifiers print and parse back *)

Lemma hexValue_hexDigit (d : N) : d < 16 -> hexValue (hexDigit d) = Some d.
Proof.
  intros H. destruct d as [|p]; [reflexivity|].
  do 4 (destruct p as [p|p|]; try reflexivity); lia.
Qed.

Lemma hexNumber_hexDigits (k : nat) :
  forall n, hexNumber (hexDigits k n) = Some (n mod 16 ^ N.of_nat k).
Proof.
  induction k as [|k IH]; intros n.
  - simpl. now rewrite N.mod_1_r.
  - cbn [hexDigits hexNumber].
    rewrite hexValue_hexDigit by (apply N.mod_lt; lia).
    rewrite IH. f_equal.
    rewrite Nat2N.inj_succ, N.pow_succ_r'.
    rewrite N.Div0.mod_mul_r. lia.
Qed.

Lemma length_hexDigits (k : nat) (n : N) : length (hexDigits k n) = k.
Proof. revert n; induction k; intros; simpl; auto. Qed.

Lemma length_string_of_list_ascii (l : list ascii) :
  String.length (string_of_list_ascii l) = length l.
Proof. induction l; simpl; auto. Qed.

Lemma castObjectId_showObjectId (oid : ObjectId) :
  oid < objectIdBound -> castObjectId (showObjectId oid) = Some oid.
Proof.
  intros H. unfold castObjectId, showObjectId.
  rewrite length_string_of_list_ascii, length_rev, length_hexDigits.
  rewrite Nat.eqb_refl.
  rewrite list_ascii_of_string_of_list_ascii, rev_involutive.
  rewrite hexNumber_hexDigits. f_equal.
  apply N.mod_small. exact H.
Qed.

(** ** The collection and its listing *)

Lemma elem_of_find_docs (c : gmap N Fields) (d : Document) :
  d ∈ find_docs c <-> c !! _id d = Some (mkFields (title d) (content d)).
Proof.
  unfold find_docs. rewrite list_elem_of_fmap. split.
  - intros [[oid f] [-> H]]. apply elem_of_map_to_list in H.
    destruct f; exact H.
  - intros H. exists (_id d, mkFields (title d) (content d)). split.
    + destruct d; reflexivity.
    + apply elem_of_map_to_list. exact H.
Qed.

Lemma find_docs_empty : find_docs ∅ = [].
Proof. unfold find_docs. now rewrite map_to_list_empty. Qed.

Lemma find_docs_lookup (c : gmap N Fields) (oid : ObjectId) (f : Fields) :
  document oid f ∈ find_docs c <-> c !! oid = Some f.
Proof. rewrite elem_of_find_docs. destruct f; reflexivity. Qed.

Lemma find_docs_NoDup (c : gmap N Fields) : NoDup (find_docs c).
Proof.
  unfold find_docs. apply NoDup_fmap_2_strong; [|apply NoDup_map_to_list].
  intros [i x] [j y] Hi Hj Heq. cbn in Heq.
  destruct x, y; unfold document in Heq; cbn in Heq. congruence.
Qed.

Lemma length_find_docs (c : gmap N Fields) : length (find_docs c) = size c.
Proof. unfold find_docs. rewrite length_fmap. apply length_map_to_list. Qed.

Lemma idsBelowCounter_spec (w : World) :
  idsBelowCounter w = true <->
  forall oid f, collection w !! oid = Some f -> oid < objectIdCounter w.
Proof.
  unfold idsBelowCounter. rewrite forallb_forall. split.
  - intros H oid f Hl. apply N.ltb_lt.
    apply (H (document oid f)). apply list_elem_of_In.
    now apply find_docs_lookup.
  - intros H d Hd. apply N.ltb_lt. apply list_elem_of_In in Hd.
    apply elem_of_find_docs in Hd. eapply H, Hd.
Qed.

Lemma storeAnswers_S (n : nat) (w : World) :
  storeAnswers (S n) w = true ->
  nextFault w = None /\ storeAnswers n (afterCall w) = true.
Proof.
  unfold storeAnswers, nextFault, afterCall. destruct (faults w) as [|[e|] fs]; cbn.
  - intros _. split; [reflexivity|]. now destruct n.
  - discriminate.
  - auto.
Qed.

(** ** What [new Post] and the update cast make of a body *)

Lemma newPost_id (oid : ObjectId) (body : Body) :
  _id (np_doc (newPost oid body)) = oid.
Proof.
  unfold newPost. now destruct (castPath "title" _), (castPath "content" _).
Qed.

(** What [new Post(req.body)] makes of each key of the body. *)
Lemma newPost_fields (oid : ObjectId) (body : Body) :
  let post := np_doc (newPost oid body) in
  let invalid := np_invalid (newPost oid body) in
  (In "title" invalid <-> exists j, body_title body = Some j /\ castString j = None) /\
  (In "content" invalid <-> exists j, body_content body = Some j /\ castString j = None) /\
  (forall j f, body_title body = Some j -> castString j = Some f -> title post = f) /\
  (body_title body = None -> title post = Missing) /\
  (forall j f, body_content body = Some j -> castString j = Some f -> content post = f) /\
  (body_content body = None -> content post = Missing).
Proof.
  unfold newPost, castPath.
  destruct (body_content_first body),
    (body_title body) as [jt|], (body_content body) as [jc|];
    try destruct (castString jt) as [ft|] eqn:Ht;
    try destruct (castString jc) as [fc|] eqn:Hc; cbn;
    repeat split; intros;
    repeat match goal with
           | H : _ \/ _ |- _ => destruct H
           | H : False |- _ => destruct H
           | H : exists _, _ |- _ => destruct H as (? & ? & ?)
           end;
    simplify_eq; eauto.
Qed.

(** ** What each handler does, by the outcome of its call on the store *)

Ltac unfold_handler :=
  unfold handler, app_post_posts, app_get_posts, app_put_posts_postId,
    app_delete_posts_postId, try_catch, mbind, M_mbind, M_bind, await,
    Post_new, res_status_send, logger_info, logger_error, emit;
  cbv beta; cbn [result world events].

Lemma app_post_posts_eq (body : Body) (w : World) :
  handler (POST_posts body) w =
  let post := newPost (objectIdCounter w) body in
  match save post (setCounter (objectIdCounter w + 1) w) with
  | (Ok _, w') =>
      mkOutcome (Ok tt) w'
        [Awaited OpSave; Sent 201 (PPost (np_doc post));
         Logged level_info "Создан новый пост:" (PPost (np_doc post))]
  | (Throw e, w') =>
      mkOutcome (Ok tt) w'
        [Awaited OpSave; Sent 400 (PError e);
         Logged level_error "Ошибка создания поста:" (PError e)]
  end.
Proof.
  unfold_handler. cbv zeta. destruct (save _ _) as [[[]|e] w']; reflexivity.
Qed.

Lemma app_get_posts_eq (w : World) :
  handler GET_posts w =
  match nextFault w with
  | Some e =>
      mkOutcome (Ok tt) (afterCall w)
        [Awaited OpFind; Sent 500 (PError e);
         Logged level_error "Ошибка получения постов:" (PError e)]
  | None =>
      let posts := find_docs (collection w) in
      mkOutcome (Ok tt) (afterCall w)
        [Awaited OpFind; Sent 200 (PPosts posts);
         Logged level_info "Получены все посты:" (PPosts posts)]
  end.
Proof. unfold_handler. unfold find, atStore. destruct (nextFault w); reflexivity. Qed.

Lemma app_put_posts_postId_eq (postId : string) (body : Body) (w : World) :
  handler (PUT_posts postId body) w =
  match findByIdAndUpdate postId body w with
  | (Ok None, w') =>
      mkOutcome (Ok tt) w'
        [Awaited OpFindByIdAndUpdate; Sent 404 (PMessage "Пост не найден")]
  | (Ok (Some post), w') =>
      mkOutcome (Ok tt) w'
        [Awaited OpFindByIdAndUpdate; Sent 200 (PPost post);
         Logged level_info "Пост обновлен:" (PPost post)]
  | (Throw e, w') =>
      mkOutcome (Ok tt) w'
        [Awaited OpFindByIdAndUpdate; Sent 400 (PError e);
         Logged level_error "Ошибка обновления поста:" (PError e)]
  end.
Proof.
  unfold_handler.
  destruct (findByIdAndUpdate _ _ _) as [[[post|]|e] w']; reflexivity.
Qed.

Lemma app_delete_posts_postId_eq (postId : string) (w : World) :
  handler (DELETE_posts postId) w =
  match findByIdAndDelete postId w with
  | (Ok None, w') =>
      mkOutcome (Ok tt) w'
        [Awaited OpFindByIdAndDelete; Sent 404 (PMessage "Пост не найден")]
  | (Ok (Some post), w') =>
      mkOutcome (Ok tt) w'
        [Awaited OpFindByIdAndDelete; Sent 204 PEmpty;
         Logged level_info "Пост удален:" (PPost post)]
  | (Throw e, w') =>
      mkOutcome (Ok tt) w'
        [Awaited OpFindByIdAndDelete; Sent 500 (PError e);
         Logged level_error "Ошибка удаления поста:" (PError e)]
  end.
Proof.
  unfold_handler.
  destruct (findByIdAndDelete _ _) as [[[post|]|e] w']; reflexivity.
Qed.

(** The calls on the model, taken apart into their cases. *)
Ltac unfold_calls :=
  unfold save, find, findByIdAndUpdate, findByIdAndDelete, atStore,
    insertOne, findOneAndUpdate, findOneAndDelete.

Ltac split_cases :=
  repeat match goal with
         | |- context [match ?x with _ => _ end] =>
             lazymatch x with
             | context [match _ with _ => _ end] => fail
             | _ => destruct x eqn:?
             end
         end.

(** The three ways a request can go: the call on the store raises and the
    [catch] block answers; the call finds nothing and the not-found branch
    answers; the [try] block runs to its end. *)
Lemma handler_cases (r : Request) (w : World) :
  (exists e m,
     storeError r w = Some e /\
     events (handler r w)
     = [Awaited (opOf r); Sent (catchStatus r) (PError e);
        Logged level_error m (PError e)] /\
     collection (serve r w) = collection w)
  \/
  (storeError r w = None /\
   exists oid,
     targetOf r = Some oid /\ collection w !! oid = None /\
     events (handler r w)
     = [Awaited (opOf r); Sent 404 (PMessage "Пост не найден")] /\
     collection (serve r w) = collection w)
  \/
  (storeError r w = None /\
   exists b m p,
     events (handler r w)
     = [Awaited (opOf r); Sent (successStatus r) b; Logged level_info m p] /\
     match r with
     | POST_posts body =>
         let post := np_doc (newPost (objectIdCounter w) body) in
         b = PPost post /\ p = PPost post /\
         np_invalid (newPost (objectIdCounter w) body) = [] /\
         collection w !! objectIdCounter w = None /\
         collection (serve r w)
         = <[objectIdCounter w := mkFields (title post) (content post)]> (collection w)
     | GET_posts =>
         b = PPosts (find_docs (collection w)) /\ p = b /\
         collection (serve r w) = collection w
     | PUT_posts postId body =>
         exists oid f u,
           castObjectId postId = Some oid /\ collection w !! oid = Some f /\
           castUpdate body = Ok u /\
           b = PPost (document oid (applySet u f)) /\ p = b /\
           collection (serve r w) = <[oid := applySet u f]> (collection w)
     | DELETE_posts postId =>
         exists oid f,
           castObjectId postId = Some oid /\ collection w !! oid = Some f /\
           b = PEmpty /\ p = PPost (document oid f) /\
           collection (serve r w) = delete oid (collection w)
     end).
Proof.
  unfold serve, storeError, raised. destruct r as [body| |postId body|postId].
  - rewrite app_post_posts_eq. cbv zeta. unfold save.
    destruct (np_invalid (newPost (objectIdCounter w) body)) eqn:Hv;
      [|left; eauto 6].
    unfold atStore, insertOne.
    change (nextFault (setCounter (objectIdCounter w + 1) w)) with (nextFault w).
    destruct (nextFault w) as [e|]; [left; eauto 6|].
    rewrite newPost_id.
    change (collection (afterCall (setCounter (objectIdCounter w + 1) w)))
      with (collection w).
    destruct (collection w !! objectIdCounter w) eqn:Hl; [left; eauto 6|].
    right; right. split; [reflexivity|]. eexists _, _, _.
    split; [reflexivity|]. cbn. auto.
  - rewrite app_get_posts_eq. unfold find, atStore.
    destruct (nextFault w) as [e|]; [left; eauto 6|].
    right; right. split; [reflexivity|]. eexists _, _, _.
    split; [reflexivity|]. cbn. auto.
  - rewrite app_put_posts_postId_eq.
    unfold findByIdAndUpdate. cbn [targetOf].
    destruct (castObjectId postId) as [oid|]; [|left; eauto 6].
    destruct (castUpdate body) as [u|e]; [|left; eauto 6].
    unfold atStore, findOneAndUpdate.
    destruct (nextFault w) as [e|]; [left; eauto 6|].
    change (collection (afterCall w)) with (collection w).
    destruct (collection w !! oid) as [f|] eqn:Hl.
    + right; right. split; [reflexivity|]. eexists _, _, _.
      split; [reflexivity|]. exists oid, f, u. cbn. auto 7.
    + right; left. split; [reflexivity|]. exists oid. cbn. auto.
  - rewrite app_delete_posts_postId_eq.
    unfold findByIdAndDelete. cbn [targetOf].
    destruct (castObjectId postId) as [oid|]; [|left; eauto 6].
    unfold atStore, findOneAndDelete.
    destruct (nextFault w) as [e|]; [left; eauto 6|].
    change (collection (afterCall w)) with (collection w).
    destruct (collection w !! oid) as [f|] eqn:Hl.
    + right; right. split; [reflexivity|]. eexists _, _, _.
      split; [reflexivity|]. exists oid, f. cbn. auto 7.
    + right; left. split; [reflexivity|]. exists oid. cbn. auto.
Qed.

(** Every handler has one of two shapes: call, response (the not-found
    branch), or call, response, log entry. *)
Lemma handler_shape (r : Request) (w : World) :
  exists op c b,
    result (handler r w) = Ok tt /\
    ((c = 404 /\ events (handler r w) = [Awaited op; Sent c b]) \/
     (c <> 404 /\ exists l m p,
        events (handler r w) = [Awaited op; Sent c b; Logged l m p])).
Proof.
  destruct r as [body| |postId body|postId].
  - rewrite app_post_posts_eq. cbv zeta.
    destruct (save _ _) as [[[]|e] w'];
      eexists _, _, _; (split; [reflexivity|]); right;
      (split; [|eexists _, _, _; reflexivity]); cbn; lia.
  - rewrite app_get_posts_eq. cbv zeta.
    destruct (nextFault w);
      eexists _, _, _; (split; [reflexivity|]); right;
      (split; [|eexists _, _, _; reflexivity]); cbn; lia.
  - rewrite app_put_posts_postId_eq.
    destruct (findByIdAndUpdate _ _ _) as [[[post|]|e] w'];
      eexists _, _, _; (split; [reflexivity|]);
      first [ left; split; reflexivity
            | right; (split; [|eexists _, _, _; reflexivity]); cbn; lia ].
  - rewrite app_delete_posts_postId_eq.
    destruct (findByIdAndDelete _ _) as [[[post|]|e] w'];
      eexists _, _, _; (split; [reflexivity|]);
      first [ left; split; reflexivity
            | right; (split; [|eexists _, _, _; reflexivity]); cbn; lia ].
Qed.

(** ** Invariants of the world along a run of requests *)

Lemma serve_counter (r : Request) (w : World) :
  objectIdCounter (serve r w)
  = match r with
    | POST_posts _ => objectIdCounter w + 1
    | _ => objectIdCounter w
    end.
Proof.
  unfold serve. destruct r as [body| |postId body|postId];
    [rewrite app_post_posts_eq; cbv zeta
    |rewrite app_get_posts_eq
    |rewrite app_put_posts_postId_eq
    |rewrite app_delete_posts_postId_eq];
    unfold_calls; split_cases; reflexivity.
Qed.

Lemma serve_counter_mono (r : Request) (w : World) :
  objectIdCounter w <= objectIdCounter (serve r w).
Proof. rewrite serve_counter. destruct r; lia. Qed.

(** A request asks the oracle at most once: not at all when Mongoose
    refuses the call, once when the call goes to the store. *)
Lemma serve_faults (r : Request) (w : World) :
  faults (serve r w) = faults w \/ faults (serve r w) = tail (faults w).
Proof.
  unfold serve. destruct r as [body| |postId body|postId];
    [rewrite app_post_posts_eq; cbv zeta
    |rewrite app_get_posts_eq
    |rewrite app_put_posts_postId_eq
    |rewrite app_delete_posts_postId_eq];
    unfold_calls; split_cases; cbn; auto.
Qed.

(** A request adds at most the identifier the generator hands out. *)
Lemma serve_lookup (r : Request) (w : World) (oid : ObjectId) :
  is_Some (collection (serve r w) !! oid) ->
  is_Some (collection w !! oid) \/ oid = objectIdCounter w.
Proof.
  destruct (handler_cases r w)
    as [(e & m & _ & _ & Hc)
       |[(_ & oid' & _ & _ & _ & Hc)|(_ & b & m & p & _ & Hr)]];
    [rewrite Hc; auto|rewrite Hc; auto|].
  destruct r as [body| |postId body|postId].
  - cbv zeta in Hr. destruct Hr as (_ & _ & _ & _ & ->). intros H.
    destruct (decide (objectIdCounter w = oid)) as [<-|Hne]; auto.
    rewrite lookup_insert_ne in H by exact Hne. auto.
  - destruct Hr as (_ & _ & ->). auto.
  - destruct Hr as (o & f & u & _ & Hl & _ & _ & _ & ->). intros H.
    destruct (decide (o = oid)) as [<-|Hne]; [left; rewrite Hl; eauto|].
    rewrite lookup_insert_ne in H by exact Hne. auto.
  - destruct Hr as (o & f & _ & Hl & _ & _ & ->). intros H. left.
    destruct (decide (o = oid)) as [<-|Hne].
    + rewrite lookup_delete_eq in H. now destruct H.
    + now rewrite lookup_delete_ne in H.
Qed.


Lemma serve_idsBelowCounter (r : Request) (w : World) :
  idsBelowCounter w = true -> idsBelowCounter (serve r w) = true.
Proof.
  rewrite !idsBelowCounter_spec. intros H oid f Hl.
  destruct (serve_lookup r w oid) as [[f' Hf]|Heq]; [eauto| |].
  - specialize (H _ _ Hf). pose proof (serve_counter_mono r w). lia.
  - subst oid. rewrite serve_counter.
    destruct (handler_cases r w)
      as [(e & m & _ & _ & Hc)
         |[(_ & oid' & _ & _ & _ & Hc)|(_ & b & m & p & _ & Hr)]].
    + rewrite Hc in Hl. specialize (H _ _ Hl). lia.
    + rewrite Hc in Hl. specialize (H _ _ Hl). lia.
    + destruct r as [body| |postId body|postId]; [lia| | |].
      * destruct Hr as (_ & _ & Hc). rewrite Hc in Hl. specialize (H _ _ Hl). lia.
      * destruct Hr as (o & f0 & u & _ & Ho & _ & _ & _ & Hc). rewrite Hc in Hl.
        destruct (decide (o = objectIdCounter w)) as [->|Hne].
        -- specialize (H _ _ Ho). lia.
        -- rewrite lookup_insert_ne in Hl by exact Hne. specialize (H _ _ Hl). lia.
      * destruct Hr as (o & f0 & _ & Ho & _ & _ & Hc). rewrite Hc in Hl.
        destruct (decide (o = objectIdCounter w)) as [->|Hne].
        -- specialize (H _ _ Ho). lia.
        -- rewrite lookup_delete_ne in Hl by exact Hne. specialize (H _ _ Hl). lia.
Qed.

Lemma serveAll_idsBelowCounter (rs : list Request) :
  forall w, idsBelowCounter w = true -> idsBelowCounter (serveAll rs w) = true.
Proof.
  induction rs as [|r rs IH]; intros w Hwf; [exact Hwf|].
  cbn. apply IH, serve_idsBelowCounter, Hwf.
Qed.

(** ** The paths through the handlers *)

Lemma responses_logEntries_of_shape (es : list Event) (op : StoreOp) (c : N) (b : Payload) :
  (c = 404 /\ es = [Awaited op; Sent c b]) \/
  (c <> 404 /\ exists l m p, es = [Awaited op; Sent c b; Logged l m p]) ->
  responses es = [(c, b)] /\
  storeCalls es = [op] /\
  length (logEntries es) = (if c =? 404 then 0%nat else 1%nat).
Proof.
  intros [[-> ->]|[Hc (l & m & p & ->)]]; cbn; [auto|].
  apply N.eqb_neq in Hc. rewrite Hc. auto.
Qed.

Lemma responses_app (es1 es2 : list Event) :
  responses (es1 ++ es2) = (responses es1 ++ responses es2)%list.
Proof. apply omap_app. Qed.

Lemma find_docs_singleton (oid : ObjectId) (f : Fields) :
  find_docs {[oid := f]} = [document oid f].
Proof. unfold find_docs. now rewrite map_to_list_singleton. Qed.

(** An error raised by the call on the model ends in the [catch] block. *)
Lemma handler_storeError (r : Request) (w : World) (e : Error) :
  storeError r w = Some e ->
  exists op m,
    events (handler r w)
    = [Awaited op; Sent (catchStatus r) (PError e); Logged level_error m (PError e)].
Proof.
  intros He.
  destruct (handler_cases r w)
    as [(e' & m & He' & Hev & _)|[(Hn & _)|(Hn & _)]]; [|congruence|congruence].
  rewrite He in He'. injection He' as <-. eauto.
Qed.


Lemma get_posts_fault (w : World) (e : Error) :
  nextFault w = Some e -> storeError GET_posts w = Some e.
Proof. intros H. unfold storeError, raised, find, atStore. now rewrite H. Qed.

(** The successful path of [POST /posts]. *)
Lemma app_post_posts_created (body : Body) (w : World) :
  nextFault w = None ->
  np_invalid (newPost (objectIdCounter w) body) = [] ->
  collection w !! objectIdCounter w = None ->
  let post := np_doc (newPost (objectIdCounter w) body) in
  handler (POST_posts body) w =
  mkOutcome (Ok tt)
    (setCollection
       (<[objectIdCounter w := mkFields (title post) (content post)]> (collection w))
       (afterCall (setCounter (objectIdCounter w + 1) w)))
    [Awaited OpSave; Sent 201 (PPost post);
     Logged level_info "Создан новый пост:" (PPost post)].
Proof.
  intros Hf Hvalid Hfresh post. rewrite app_post_posts_eq. cbv zeta.
  unfold save. rewrite Hvalid. unfold atStore, insertOne.
  change (nextFault (setCounter (objectIdCounter w + 1) w)) with (nextFault w).
  rewrite Hf. fold post.
  replace (_id post) with (objectIdCounter w) by (symmetry; apply newPost_id).
  change (collection (afterCall (setCounter (objectIdCounter w + 1) w)))
    with (collection w).
  now rewrite Hfresh.
Qed.

Lemma idsBelowCounter_fresh (w : World) :
  idsBelowCounter w = true -> collection w !! objectIdCounter w = None.
Proof.
  intros Hwf. destruct (collection w !! objectIdCounter w) as [f|] eqn:Hl; [|reflexivity].
  pose proof (proj1 (idsBelowCounter_spec w) Hwf _ _ Hl). lia.
Qed.

Lemma forallb_firstn_pred {A} (P : A -> bool) (n : nat) :
  forall l, forallb P (firstn (S n) l) = true -> forallb P (firstn n l) = true.
Proof.
  induction n as [|n IH]; intros l H; [reflexivity|].
  destruct l as [|x l]; [reflexivity|].
  cbn in *. apply andb_true_iff in H as [Hx H]. rewrite Hx. cbn. now apply IH.
Qed.

Lemma storeAnswers_pred (n : nat) (w w' : World) :
  faults w' = faults w \/ faults w' = tail (faults w) ->
  storeAnswers (S n) w = true ->
  storeAnswers n w' = true.
Proof.
  unfold storeAnswers. intros [-> | ->] H.
  - now apply forallb_firstn_pred.
  - destruct (faults w) as [|x fs]; cbn in *; [now rewrite firstn_nil|].
    now apply andb_true_iff in H as [_ H].
Qed.

Lemma storeAnswers_serve (n : nat) (r : Request) (w : World) :
  storeAnswers (S n) w = true ->
  nextFault w = None /\ storeAnswers n (serve r w) = true.
Proof.
  intros H. split; [now apply storeAnswers_S in H|].
  eapply storeAnswers_pred; [apply serve_faults|exact H].
Qed.

(** [PUT] and [DELETE] on an identifier that is stored, or is not. *)
Lemma app_put_found (postId : string) (body : Body) (w : World)
    (oid : ObjectId) (f : Fields) (u : SetUpdate) :
  nextFault w = None ->
  castObjectId postId = Some oid ->
  castUpdate body = Ok u ->
  collection w !! oid = Some f ->
  handler (PUT_posts postId body) w =
  mkOutcome (Ok tt)
    (setCollection (<[oid := applySet u f]> (collection w)) (afterCall w))
    [Awaited OpFindByIdAndUpdate; Sent 200 (PPost (document oid (applySet u f)));
     Logged level_info "Пост обновлен:" (PPost (document oid (applySet u f)))].
Proof.
  intros Hf Hid Hu Hl. rewrite app_put_posts_postId_eq.
  unfold findByIdAndUpdate, atStore, findOneAndUpdate. rewrite Hid, Hu, Hf.
  change (collection (afterCall w)) with (collection w). now rewrite Hl.
Qed.

Lemma app_put_missing (postId : string) (body : Body) (w : World)
    (oid : ObjectId) (u : SetUpdate) :
  nextFault w = None ->
  castObjectId postId = Some oid ->
  castUpdate body = Ok u ->
  collection w !! oid = None ->
  handler (PUT_posts postId body) w =
  mkOutcome (Ok tt) (afterCall w)
    [Awaited OpFindByIdAndUpdate; Sent 404 (PMessage "Пост не найден")].
Proof.
  intros Hf Hid Hu Hl. rewrite app_put_posts_postId_eq.
  unfold findByIdAndUpdate, atStore, findOneAndUpdate. rewrite Hid, Hu, Hf.
  change (collection (afterCall w)) with (collection w). now rewrite Hl.
Qed.

(** A body that cannot be cast is refused before the store is contacted. *)
Lemma app_put_refused (postId : string) (body : Body) (w : World)
    (oid : ObjectId) (e : Error) :
  castObjectId postId = Some oid ->
  castUpdate body = Throw e ->
  handler (PUT_posts postId body) w =
  mkOutcome (Ok tt) w
    [Awaited OpFindByIdAndUpdate; Sent 400 (PError e);
     Logged level_error "Ошибка обновления поста:" (PError e)].
Proof.
  intros Hid Hu. rewrite app_put_posts_postId_eq.
  unfold findByIdAndUpdate. now rewrite Hid, Hu.
Qed.

Lemma app_put_uncastable (postId : string) (body : Body) (w : World) (e : Error) :
  nextFault w = None ->
  castUpdate body = Throw e ->
  collection (serve (PUT_posts postId body) w) = collection w /\
  exists e', responses (events (handler (PUT_posts postId body) w)) = [(400, PError e')].
Proof.
  intros Hf Hu. unfold serve. rewrite app_put_posts_postId_eq.
  unfold findByIdAndUpdate. destruct (castObjectId postId); [rewrite Hu|]; cbn; eauto.
Qed.

Lemma app_put_malformed (postId : string) (body : Body) (w : World) :
  castObjectId postId = None ->
  handler (PUT_posts postId body) w =
  mkOutcome (Ok tt) w
    [Awaited OpFindByIdAndUpdate; Sent 400 (PError (CastError "_id"));
     Logged level_error "Ошибка обновления поста:" (PError (CastError "_id"))].
Proof.
  intros Hid. rewrite app_put_posts_postId_eq.
  unfold findByIdAndUpdate. now rewrite Hid.
Qed.

Lemma app_delete_found (postId : string) (w : World) (oid : ObjectId) (f : Fields) :
  nextFault w = None ->
  castObjectId postId = Some oid ->
  collection w !! oid = Some f ->
  handler (DELETE_posts postId) w =
  mkOutcome (Ok tt)
    (setCollection (delete oid (collection w)) (afterCall w))
    [Awaited OpFindByIdAndDelete; Sent 204 PEmpty;
     Logged level_info "Пост удален:" (PPost (document oid f))].
Proof.
  intros Hf Hid Hl. rewrite app_delete_posts_postId_eq.
  unfold findByIdAndDelete, atStore, findOneAndDelete. rewrite Hid, Hf.
  change (collection (afterCall w)) with (collection w). now rewrite Hl.
Qed.

Lemma app_delete_missing (postId : string) (w : World) (oid : ObjectId) :
  nextFault w = None ->
  castObjectId postId = Some oid ->
  collection w !! oid = None ->
  handler (DELETE_posts postId) w =
  mkOutcome (Ok tt) (afterCall w)
    [Awaited OpFindByIdAndDelete; Sent 404 (PMessage "Пост не найден")].
Proof.
  intros Hf Hid Hl. rewrite app_delete_posts_postId_eq.
  unfold findByIdAndDelete, atStore, findOneAndDelete. rewrite Hid, Hf.
  change (collection (afterCall w)) with (collection w). now rewrite Hl.
Qed.

Lemma app_delete_malformed (postId : string) (w : World) :
  castObjectId postId = None ->
  handler (DELETE_posts postId) w =
  mkOutcome (Ok tt) w
    [Awaited OpFindByIdAndDelete; Sent 500 (PError (CastError "_id"));
     Logged level_error "Ошибка удаления поста:" (PError (CastError "_id"))].
Proof.
  intros Hid. rewrite app_delete_posts_postId_eq.
  unfold findByIdAndDelete. now rewrite Hid.
Qed.


(** What the update cast makes of each key, and which key it reports. *)
Lemma castUpdate_Ok (body : Body) (u : SetUpdate) :
  castUpdate body = Ok u ->
  (forall j, body_title body = Some j -> Some <$> castString j = Some (set_title u)) /\
  (body_title body = None -> set_title u = None) /\
  (forall j, body_content body = Some j -> Some <$> castString j = Some (set_content u)) /\
  (body_content body = None -> set_content u = None).
Proof.
  unfold castUpdate, castSet.
  destruct (body_content_first body),
    (body_title body) as [jt|], (body_content body) as [jc|];
    try destruct (castString jt) as [ft|] eqn:Ht;
    try destruct (castString jc) as [fc|] eqn:Hc;
    intros Hu; try discriminate Hu; injection Hu as <-; cbn;
    repeat split; intros; simplify_eq; try reflexivity;
    match goal with H : castString _ = _ |- _ => now rewrite H end.
Qed.

(** ** The claims *)

(** C1, as stated, fails.  With the post [{_id: 7, title: "T", content: "C"}]
    stored, [PUT /posts/000000000000000000000007] with body
    [{content: "new"}] answers 200 with the title still ["T"]: the omitted
    field is preserved, not cleared as a replacement of the fields would. *)
Lemma C1_update_keeps_omitted_title :
  responses (events (handler (PUT_posts (showObjectId 7) bodyContentOnly) blogWorld))
  = [(200, PPost (mkDocument 7 (Text "T") (Text "new")))] /\
  ~ spec_UpdateById_replaces blogWorld (showObjectId 7) bodyContentOnly.
Proof.
  split; [reflexivity|].
  intros H. specialize (H 7 eq_refl (ex_intro _ _ eq_refl)).
  vm_compute in H. discriminate H.
Qed.

(** C1, amended: for every stored post and every body whose supplied fields
    the schema can cast, the update (when the store answers) sets exactly
    the supplied fields to their cast values, leaves each omitted field as it
    was stored, and answers 200 with the updated post, which carries the same
    id and is what the collection now holds under that id. *)
Theorem C1_update_sets_supplied_fields
    (w : World) (postId : string) (oid : ObjectId) (f : Fields)
    (body : Body) (u : SetUpdate) :
  castObjectId postId = Some oid ->
  collection w !! oid = Some f ->
  castUpdate body = Ok u ->
  nextFault w = None ->
  exists post,
    responses (events (handler (PUT_posts postId body) w)) = [(200, PPost post)] /\
    _id post = oid /\
    (forall j, body_title body = Some j -> castString j = Some (title post)) /\
    (body_title body = None -> title post = f_title f) /\
    (forall j, body_content body = Some j -> castString j = Some (content post)) /\
    (body_content body = None -> content post = f_content f) /\
    collection (serve (PUT_posts postId body) w) !! oid
    = Some (mkFields (title post) (content post)).
Proof.
  intros Hid Hl Hu Hf. exists (document oid (applySet u f)).
  unfold serve. rewrite (app_put_found postId body w oid f u Hf Hid Hu Hl).
  cbn [events world collection setCollection]. rewrite lookup_insert_eq.
  destruct (castUpdate_Ok body u Hu) as (Ht1 & Ht2 & Hc1 & Hc2).
  split; [reflexivity|]. split; [reflexivity|].
  split; [|split; [|split; [|split; [|reflexivity]]]].
  - intros j Hj. specialize (Ht1 j Hj).
    destruct (castString j) as [x|]; [|discriminate Ht1].
    cbn in Ht1. injection Ht1 as Ht1. cbn. now rewrite <- Ht1.
  - intros Hn. cbn. now rewrite (Ht2 Hn).
  - intros j Hj. specialize (Hc1 j Hj).
    destruct (castString j) as [x|]; [|discriminate Hc1].
    cbn in Hc1. injection Hc1 as Hc1. cbn. now rewrite <- Hc1.
  - intros Hn. cbn. now rewrite (Hc2 Hn).
Qed.

Lemma C1_update_sets_supplied_fields_witness :
  exists post,
    responses (events (handler (PUT_posts (showObjectId 7) bodyContentOnly) blogWorld))
    = [(200, PPost post)] /\
    _id post = 7 /\
    (forall j, body_title bodyContentOnly = Some j -> castString j = Some (title post)) /\
    (body_title bodyContentOnly = None -> title post = Text "T") /\
    (forall j, body_content bodyContentOnly = Some j -> castString j = Some (content post)) /\
    (body_content bodyContentOnly = None -> content post = Text "C") /\
    collection (serve (PUT_posts (showObjectId 7) bodyContentOnly) blogWorld) !! 7
    = Some (mkFields (title post) (content post)).
Proof.
  apply (C1_update_sets_supplied_fields blogWorld (showObjectId 7) 7
           (mkFields (Text "T") (Text "C")) bodyContentOnly
           (mkSetUpdate None (Some (Text "new")))); reflexivity.
Defined.

(** C2, as stated, fails.  [PUT /posts/000000000000000000000009] on a store
    that holds no such post answers 404 and returns before any logger call:
    the request leaves no log entry. *)
Lemma C2_not_found_writes_no_log_entry :
  events (handler (PUT_posts (showObjectId 9) bodyContentOnly) blogWorld)
  = [Awaited OpFindByIdAndUpdate; Sent 404 (PMessage "Пост не найден")] /\
  ~ spec_oneLogEntry (PUT_posts (showObjectId 9) bodyContentOnly) blogWorld.
Proof. split; [reflexivity|]. unfold spec_oneLogEntry. vm_compute. discriminate. Qed.

(** C2, amended: every request to one of the four routes gets exactly one
    response; the handler writes exactly one log entry when that response is
    not the 404 of the not-found branch, and none when it is. *)
Theorem C2_one_log_entry_unless_not_found (r : Request) (w : World) :
  exists c b,
    responses (events (handler r w)) = [(c, b)] /\
    length (logEntries (events (handler r w))) = (if c =? 404 then 0%nat else 1%nat).
Proof.
  destruct (handler_shape r w) as (op & c & b & _ & Hshape).
  apply responses_logEntries_of_shape in Hshape as (Hr & _ & Hl).
  eauto.
Qed.

(** C3: [POST /posts] with body [{title: T, content: C}], on a store that
    answers, returns 201 with a post that carries an id not stored before
    and the same title and content, and a [GET /posts] that follows lists
    that post; whenever the store rejects the post being saved, the route
    answers 400 instead, with the error as body. *)
Theorem C3_create_returns_201_and_is_listed
    (w : World) (T C : string) (body : Body) :
  (idsBelowCounter w = true ->
   storeAnswers 2 w = true ->
   exists post posts,
     responses (events (handler (POST_posts (mkBody (Some (JStr T)) (Some (JStr C)))) w))
     = [(201, PPost post)] /\
     collection w !! _id post = None /\
     title post = Text T /\ content post = Text C /\
     responses (events (handler GET_posts
        (serve (POST_posts (mkBody (Some (JStr T)) (Some (JStr C)))) w)))
     = [(200, PPosts posts)] /\
     post ∈ posts) /\
  (forall e,
     storeError (POST_posts body) w = Some e ->
     responses (events (handler (POST_posts body) w)) = [(400, PError e)]).
Proof.
  split.
  - intros Hwf Hans.
    apply storeAnswers_S in Hans as [Hf Hans].
    apply storeAnswers_S in Hans as [Hf' _].
    pose proof (idsBelowCounter_fresh w Hwf) as Hfresh.
    exists (mkDocument (objectIdCounter w) (Text T) (Text C)).
    eexists. unfold serve.
    rewrite (app_post_posts_created (mkBody (Some (JStr T)) (Some (JStr C))) w
               Hf eq_refl Hfresh).
    cbn [world events]. rewrite app_get_posts_eq.
    change (nextFault (setCollection _ (afterCall (setCounter _ w))))
      with (nextFault (afterCall w)).
    rewrite Hf'. cbv zeta. cbn [world events].
    repeat split; try reflexivity; [exact Hfresh|].
    apply elem_of_find_docs. cbn. apply lookup_insert_eq.
  - intros e He. apply handler_storeError in He as (op & m & ->). reflexivity.
Qed.

Lemma C3_create_returns_201_and_is_listed_witness :
  (exists post posts,
     responses (events (handler (POST_posts bodyTC) blogWorld)) = [(201, PPost post)] /\
     collection blogWorld !! _id post = None /\
     title post = Text "T" /\ content post = Text "C" /\
     responses (events (handler GET_posts (serve (POST_posts bodyTC) blogWorld)))
     = [(200, PPosts posts)] /\
     post ∈ posts) /\
  responses (events (handler (POST_posts bodyBadTitle) blogWorld))
  = [(400, PError (ValidationError ["title"]))].
Proof.
  destruct (C3_create_returns_201_and_is_listed blogWorld "T" "C" bodyBadTitle)
    as [Hcreate Hreject].
  split.
  - apply Hcreate; reflexivity.
  - apply Hreject. reflexivity.
Defined.

(** C4, as stated, fails.  [PUT /posts/000000000000000000000009] matches no
    post, yet with the body [{title: {}, content: "C"}] it is answered 400,
    not 404: the update is cast before the post is looked for, and a field
    that cannot be cast refuses the call. *)
Lemma C4_unknown_id_with_uncastable_body_gets_400 :
  matchesNoPost blogWorld (showObjectId 9) /\
  responses (events (handler (PUT_posts (showObjectId 9) bodyBadTitle) blogWorld))
  = [(400, PError (CastError "title"))] /\
  ~ spec_put_unmatched_gives_404 blogWorld (showObjectId 9) bodyBadTitle.
Proof.
  assert (Hno : matchesNoPost blogWorld (showObjectId 9)).
  { intros oid H. vm_compute in H. injection H as <-. reflexivity. }
  split; [exact Hno|]. split; [reflexivity|].
  intros H. destruct (H ltac:(discriminate) Hno) as [b Hb].
  vm_compute in Hb. discriminate Hb.
Qed.

(** C4, amended: [PUT /posts/{id}] with a well-formed id that matches no
    post returns 404 with the message ["Пост не найден"] and leaves the
    collection as it was, provided the fields of the body can be cast and
    the store answers; it returns 400, with the collection left as it was,
    when a supplied field cannot be cast (whether or not the id matches a
    post), when the id cannot be cast to an identifier, and when the store
    fails the call; and a 404 is never accompanied by a log entry, hence by
    none at error level. *)
Theorem C4_put_unknown_id_404_malformed_id_400
    (w : World) (postId : string) (body : Body) :
  (forall oid u,
     castObjectId postId = Some oid ->
     collection w !! oid = None ->
     castUpdate body = Ok u ->
     nextFault w = None ->
     responses (events (handler (PUT_posts postId body) w))
     = [(404, PMessage "Пост не найден")] /\
     collection (serve (PUT_posts postId body) w) = collection w) /\
  (forall oid e,
     castObjectId postId = Some oid ->
     castUpdate body = Throw e ->
     responses (events (handler (PUT_posts postId body) w)) = [(400, PError e)] /\
     collection (serve (PUT_posts postId body) w) = collection w) /\
  (castObjectId postId = None ->
   responses (events (handler (PUT_posts postId body) w))
   = [(400, PError (CastError "_id"))] /\
   collection (serve (PUT_posts postId body) w) = collection w) /\
  (forall oid u e,
     castObjectId postId = Some oid ->
     castUpdate body = Ok u ->
     nextFault w = Some e ->
     responses (events (handler (PUT_posts postId body) w)) = [(400, PError e)] /\
     collection (serve (PUT_posts postId body) w) = collection w) /\
  (forall b,
     responses (events (handler (PUT_posts postId body) w)) = [(404, b)] ->
     logEntries (events (handler (PUT_posts postId body) w)) = []).
Proof.
  split; [|split; [|split; [|split]]].
  - intros oid u Hid Hl Hu Hf. unfold serve.
    rewrite (app_put_missing postId body w oid u Hf Hid Hu Hl). split; reflexivity.
  - intros oid e Hid Hu. unfold serve.
    rewrite (app_put_refused postId body w oid e Hid Hu). split; reflexivity.
  - intros Hid. unfold serve.
    rewrite (app_put_malformed postId body w Hid). split; reflexivity.
  - intros oid u e Hid Hu Hf. unfold serve. rewrite app_put_posts_postId_eq.
    unfold findByIdAndUpdate, atStore. rewrite Hid, Hu, Hf. split; reflexivity.
  - intros b Hb.
    destruct (handler_shape (PUT_posts postId body) w) as (op & c & b' & _ & Hshape).
    destruct Hshape as [[-> ->]|[Hc (l & m & p & Hev)]]; [reflexivity|].
    rewrite Hev in Hb. cbn in Hb. congruence.
Qed.

Lemma C4_put_unknown_id_404_malformed_id_400_witness :
  (responses (events (handler (PUT_posts (showObjectId 9) bodyContentOnly) blogWorld))
   = [(404, PMessage "Пост не найден")] /\
   collection (serve (PUT_posts (showObjectId 9) bodyContentOnly) blogWorld)
   = collection blogWorld) /\
  (responses (events (handler (PUT_posts (showObjectId 9) bodyBadTitle) blogWorld))
   = [(400, PError (CastError "title"))] /\
   collection (serve (PUT_posts (showObjectId 9) bodyBadTitle) blogWorld)
   = collection blogWorld) /\
  (responses (events (handler (PUT_posts "not-an-id" bodyContentOnly) blogWorld))
   = [(400, PError (CastError "_id"))] /\
   collection (serve (PUT_posts "not-an-id" bodyContentOnly) blogWorld)
   = collection blogWorld) /\
  (responses (events (handler (PUT_posts (showObjectId 7) bodyContentOnly) downWorld))
   = [(400, PError (StorageError "connect ECONNREFUSED 127.0.0.1:27017"))] /\
   collection (serve (PUT_posts (showObjectId 7) bodyContentOnly) downWorld)
   = collection downWorld) /\
  logEntries (events (handler (PUT_posts (showObjectId 9) bodyContentOnly) blogWorld)) = [].
Proof.
  split; [|split; [|split; [|split]]].
  - apply (proj1 (C4_put_unknown_id_404_malformed_id_400
                    blogWorld (showObjectId 9) bodyContentOnly)
             9 (mkSetUpdate None (Some (Text "new")))); reflexivity.
  - apply (proj1 (proj2 (C4_put_unknown_id_404_malformed_id_400
                           blogWorld (showObjectId 9) bodyBadTitle))
             9 (CastError "title")); reflexivity.
  - apply (proj1 (proj2 (proj2 (C4_put_unknown_id_404_malformed_id_400
                                  blogWorld "not-an-id" bodyContentOnly)))).
    reflexivity.
  - apply (proj1 (proj2 (proj2 (proj2 (C4_put_unknown_id_404_malformed_id_400
                                         downWorld (showObjectId 7) bodyContentOnly))))
             7 (mkSetUpdate None (Some (Text "new")))); reflexivity.
  - apply (proj2 (proj2 (proj2 (proj2 (C4_put_unknown_id_404_malformed_id_400
                                         blogWorld (showObjectId 9) bodyContentOnly))))
             (PMessage "Пост не найден")).
    reflexivity.
Defined.




(** C6: [GET /posts], the store answering, returns 200 with the list of the
    stored posts: each stored post once and nothing else; with no post
    stored the list is empty; when the store fails the call, the route
    returns 500. *)
Theorem C6_get_posts_lists_all (w : World) :
  (nextFault w = None ->
   responses (events (handler GET_posts w))
   = [(200, PPosts (find_docs (collection w)))] /\
   (forall oid f, document oid f ∈ find_docs (collection w) <-> collection w !! oid = Some f) /\
   (forall post, post ∈ find_docs (collection w) ->
                 exists f, collection w !! _id post = Some f /\ post = document (_id post) f) /\
   NoDup (find_docs (collection w)) /\
   (collection w = ∅ -> responses (events (handler GET_posts w)) = [(200, PPosts [])])) /\
  (forall e,
     nextFault w = Some e ->
     responses (events (handler GET_posts w)) = [(500, PError e)]).
Proof.
  split.
  - intros Hf. rewrite app_get_posts_eq, Hf. cbv zeta. cbn [events responses omap].
    split; [reflexivity|]. split; [apply find_docs_lookup|].
    split; [|split; [apply find_docs_NoDup|]].
    + intros post Hin. apply elem_of_find_docs in Hin.
      eexists; split; [exact Hin|]. now destruct post.
    + intros ->. now rewrite find_docs_empty.
  - intros e Hf.
    destruct (handler_storeError GET_posts w e) as (op & m & ->);
      [now apply get_posts_fault|reflexivity].
Qed.

Lemma C6_get_posts_lists_all_witness :
  responses (events (handler GET_posts blogWorld))
  = [(200, PPosts [mkDocument 7 (Text "T") (Text "C")])] /\
  responses (events (handler GET_posts emptyWorld)) = [(200, PPosts [])] /\
  responses (events (handler GET_posts downWorld))
  = [(500, PError (StorageError "connect ECONNREFUSED 127.0.0.1:27017"))].
Proof.
  split; [|split].
  - exact (proj1 (proj1 (C6_get_posts_lists_all blogWorld) eq_refl)).
  - apply (proj1 (C6_get_posts_lists_all emptyWorld) eq_refl). reflexivity.
  - apply (proj2 (C6_get_posts_lists_all downWorld)). reflexivity.
Defined.

(** C7: starting from an empty collection, with the store answering the
    four calls, create, list, update the listed post, delete it leaves the
    collection empty again, whatever the two bodies; when the created body
    is one the schema accepts, the four responses are 201, 200, then 200
    (or 400 for an update body the schema refuses), then 204. *)
Theorem C7_create_list_update_delete_leaves_empty
    (create update : Body) (w : World) :
  collection w = ∅ ->
  objectIdCounter w < objectIdBound ->
  storeAnswers 4 w = true ->
  collection (fst (roundTrip create update w)) = ∅ /\
  (np_invalid (newPost (objectIdCounter w) create) = [] ->
   exists s,
     fst <$> snd (roundTrip create update w) = [201; 200; s; 204] /\
     (forall u, castUpdate update = Ok u -> s = 200)).
Proof.
  intros Hempty Hbound Hans.
  assert (Hfresh : collection w !! objectIdCounter w = None)
    by (rewrite Hempty; apply lookup_empty).
  pose proof Hans as Hans0.
  apply (storeAnswers_serve 3 (POST_posts create)) in Hans as [Hf1 Hans].
  unfold roundTrip.
  destruct (np_invalid (newPost (objectIdCounter w) create)) as [|p ps] eqn:Hvalid.
  - (* the post is created *)
    unfold serve in Hans.
    rewrite (app_post_posts_created create w Hf1 Hvalid Hfresh) in *.
    cbv zeta in *. cbn [world events] in *.
    set (post := np_doc (newPost (objectIdCounter w) create)) in *.
    set (f0 := mkFields (title post) (content post)) in *.
    set (w1 := setCollection _ _) in *.
    assert (Hc1 : collection w1 = {[objectIdCounter w := f0]})
      by (subst w1; cbn; rewrite Hempty; apply insert_empty).
    apply (storeAnswers_serve 2 GET_posts) in Hans as [Hf2 Hans].
    unfold serve in Hans.
    rewrite app_get_posts_eq, Hf2 in *. cbv zeta in *. cbn [world events] in *.
    rewrite Hc1, find_docs_singleton.
    match goal with
    | |- context [listedIds ?es] =>
        change (listedIds es) with [showObjectId (objectIdCounter w)]
    end.
    cbv iota.
    set (postId := showObjectId (objectIdCounter w)).
    assert (Hid : castObjectId postId = Some (objectIdCounter w))
      by (apply castObjectId_showObjectId, Hbound).
    assert (Hl2 : collection (afterCall w1) !! objectIdCounter w = Some f0)
      by (change (collection (afterCall w1)) with (collection w1);
          rewrite Hc1; apply lookup_singleton_eq).
    apply (storeAnswers_serve 1 (PUT_posts postId update)) in Hans as [Hf3 Hans].
    apply storeAnswers_S in Hans as [Hf4 _].
    destruct (castUpdate update) as [u|e] eqn:Hu.
    + unfold serve in Hf4.
      rewrite (app_put_found postId update _ _ f0 u Hf3 Hid Hu Hl2) in *.
      cbn [world events] in *.
      erewrite app_delete_found;
        [|exact Hf4|exact Hid|cbn; apply lookup_insert_eq].
      cbn [world events fst snd]. split.
      * cbn [fst world collection setCollection].
        rewrite delete_insert_eq.
        change (collection (afterCall w1)) with (collection w1).
        rewrite Hc1. apply delete_singleton_eq.
      * intros _. exists 200. split; [reflexivity|auto].
    + destruct (app_put_uncastable postId update (afterCall w1) e Hf3 Hu)
        as [Hsame [e' Hresp]].
      unfold serve in Hsame, Hf4.
      erewrite app_delete_found;
        [|exact Hf4|exact Hid|rewrite Hsame; exact Hl2].
      cbn [world events fst snd]. split.
      * cbn [fst world collection setCollection]. rewrite Hsame.
        change (collection (afterCall w1)) with (collection w1).
        rewrite Hc1. apply delete_singleton_eq.
      * intros _. exists 400. split; [|discriminate].
        rewrite !responses_app, Hresp. reflexivity.
  - (* the post is refused: nothing is created, nothing is listed *)
    assert (Hw1 : world (handler (POST_posts create) w)
                  = setCounter (objectIdCounter w + 1) w).
    { rewrite app_post_posts_eq. cbv zeta. unfold save. now rewrite Hvalid. }
    unfold serve in Hans. rewrite Hw1 in *.
    apply storeAnswers_S in Hans as [Hf2 _].
    rewrite app_get_posts_eq, Hf2. cbv zeta. cbn [world events].
    change (collection (setCounter (objectIdCounter w + 1) w))
      with (collection w).
    rewrite Hempty, find_docs_empty.
    match goal with
    | |- context [listedIds ?es] => change (listedIds es) with (@nil string)
    end.
    cbv iota. cbn [fst]. split; [exact Hempty|discriminate].
Qed.

Lemma C7_create_list_update_delete_leaves_empty_witness :
  collection (fst (roundTrip bodyTC bodyContentOnly emptyWorld)) = ∅ /\
  exists s,
    fst <$> snd (roundTrip bodyTC bodyContentOnly emptyWorld) = [201; 200; s; 204] /\
    (forall u, castUpdate bodyContentOnly = Ok u -> s = 200).
Proof.
  destruct (C7_create_list_update_delete_leaves_empty bodyTC bodyContentOnly emptyWorld)
    as [Hempty Hstatuses]; [reflexivity|reflexivity|reflexivity|].
  split; [exact Hempty|]. apply Hstatuses. reflexivity.
Defined.

(** C8, as stated, fails.  On a successful [POST /posts] the handler first
    sends the 201 response and only then calls the logger: the log entry
    comes after the response, not before it. *)
Lemma C8_response_is_sent_before_the_log_entry :
  events (handler (POST_posts bodyTC) emptyWorld)
  = [Awaited OpSave;
     Sent 201 (PPost (mkDocument 0 (Text "T") (Text "C")));
     Logged level_info "Создан новый пост:" (PPost (mkDocument 0 (Text "T") (Text "C")))] /\
  logBeforeResponse (events (handler (POST_posts bodyTC) emptyWorld)) = false.
Proof. split; reflexivity. Qed.

(** C8, amended: every handler completes normally, and what it does is
    either its call on the store followed by the response alone (the 404 of
    the not-found branch, which logs nothing), or the call, the response and
    then one log entry: the entry is written after the response has been
    sent, as the last thing the handler does before it completes. *)
Theorem C8_log_entry_follows_response (r : Request) (w : World) :
  result (handler r w) = Ok tt /\
  logBeforeResponse (events (handler r w)) = false /\
  exists op c b,
    events (handler r w) = [Awaited op; Sent c b] \/
    exists l m p, events (handler r w) = [Awaited op; Sent c b; Logged l m p].
Proof.
  destruct (handler_shape r w) as (op & c & b & Hres & Hshape).
  split; [exact Hres|].
  destruct Hshape as [[_ Hev]|[_ (l & m & p & Hev)]]; rewrite Hev;
    (split; [reflexivity|]); exists op, c, b; eauto.
Qed.




(** ** Routing and the documentation mount *)

Lemma dispatch_app (l1 l2 : list Layer) (m : Method) (path : string) :
  dispatch (l1 ++ l2) m path =
  match dispatch l1 m path with
  | Some t => Some t
  | None => dispatch l2 m path
  end.
Proof.
  induction l1 as [|l l1 IH]; [reflexivity|].
  cbn. destruct (matchLayer l m path); [exact IH|reflexivity|reflexivity].
Qed.

Lemma swaggerLayer_never_matches_rooted_path (m : Method) (path : string) :
  matchLayer swaggerLayer m (String "/" path) = NoMatch.
Proof. reflexivity. Qed.

(** C10: the documentation viewer is mounted at the path string
    [`/api-docs`], whose first and last characters are backticks; a request
    for [/api-docs], and indeed for any path that starts with a slash, is
    never handed to the documentation layer; and the mount changes nothing
    for the four routes: a request is dispatched to them exactly as it would
    be without the mount. *)
Theorem C10_swagger_mounted_at_backticked_path (m : Method) (path : string) :
  swaggerMount = "`/api-docs`" /\
  String.get 0 swaggerMount = Some "`"%char /\
  String.get (String.length swaggerMount - 1) swaggerMount = Some "`"%char /\
  dispatch appLayers m "/api-docs" = None /\
  dispatch appLayers m (String "/" path) <> Some SwaggerUi /\
  dispatch appLayers m (String "/" path) = dispatch crudLayers m (String "/" path) /\
  dispatch appLayers m path =
    match dispatch crudLayers m path with
    | Some t => Some t
    | None => dispatch [swaggerLayer] m path
    end.
Proof.
  assert (Hrooted : dispatch appLayers m (String "/" path)
                    = dispatch crudLayers m (String "/" path)).
  { unfold appLayers. rewrite dispatch_app.
    destruct (dispatch crudLayers m (String "/" path)); [reflexivity|].
    cbn [dispatch]. now rewrite swaggerLayer_never_matches_rooted_path. }
  split; [reflexivity|]. split; [reflexivity|]. split; [reflexivity|].
  split; [now destruct m|]. split; [|split; [exact Hrooted|apply dispatch_app]].
  rewrite Hrooted. unfold crudLayers. cbn [dispatch layer_target].
  repeat match goal with
         | |- context [match matchLayer ?l ?m ?p with _ => _ end] =>
             destruct (matchLayer l m p)
         end; discriminate.
Qed.

(** * Further properties of the handlers *)

(** X1: each route answers with one of its own statuses only (POST 201 or
    400, GET 200 or 500, PUT 200, 404 or 400, DELETE 204, 404 or 500), and it
    answers with the status of its [catch] block exactly when its call on
    the store raises, the body then being the error raised. *)
Theorem X1_statuses_of_each_route (r : Request) (w : World) :
  exists c b,
    responses (events (handler r w)) = [(c, b)] /\
    In c (match r with
          | POST_posts _ => [201; 400]
          | GET_posts => [200; 500]
          | PUT_posts _ _ => [200; 404; 400]
          | DELETE_posts _ => [204; 404; 500]
          end) /\
    (c = catchStatus r <-> exists e, storeError r w = Some e /\ b = PError e).
Proof.
  destruct (handler_cases r w)
    as [(e & m & He & Hev & _)
       |[(Hn & oid & Ht & _ & Hev & _)|(Hn & b & m & p & Hev & _)]];
    rewrite Hev; eexists _, _; (split; [reflexivity|]).
  - split; [destruct r; cbn; auto|]. split; eauto.
  - split; [destruct r; try discriminate Ht; cbn; auto|].
    split; [destruct r; discriminate|].
    intros (e & He & _). congruence.
  - split; [destruct r; cbn; auto|].
    split; [destruct r; discriminate|].
    intros (e & He & _). congruence.
Qed.

Lemma X1_statuses_of_each_route_witness :
  exists c b,
    responses (events (handler (DELETE_posts "not-an-id") blogWorld)) = [(c, b)] /\
    In c [204; 404; 500] /\
    (c = 500 <-> exists e,
        storeError (DELETE_posts "not-an-id") blogWorld = Some e /\ b = PError e).
Proof. exact (X1_statuses_of_each_route (DELETE_posts "not-an-id") blogWorld). Defined.

(** X2: when a handler writes a log entry, its level follows the response:
    an error-level entry goes with the status of the [catch] block and
    carries the very error that was sent; an info-level entry goes with the
    success status and carries the body that was sent, except on DELETE,
    where the body sent is empty and the entry carries the post that was
    removed, as it was stored. *)
Theorem X2_log_entry_matches_response
    (r : Request) (w : World) (l : Level) (m : string) (p : Payload) :
  logEntries (events (handler r w)) = [(l, m, p)] ->
  (l = level_error /\
   responses (events (handler r w)) = [(catchStatus r, p)] /\
   exists e, p = PError e) \/
  (l = level_info /\
   match r with
   | DELETE_posts postId =>
       responses (events (handler r w)) = [(204, PEmpty)] /\
       exists oid f,
         castObjectId postId = Some oid /\ collection w !! oid = Some f /\
         p = PPost (document oid f)
   | _ => responses (events (handler r w)) = [(successStatus r, p)]
   end).
Proof.
  destruct (handler_cases r w)
    as [(e & m' & He & Hev & _)
       |[(Hn & oid & Ht & _ & Hev & _)|(Hn & b & m' & p' & Hev & Hr)]];
    rewrite Hev; cbn; intros Hlog; try discriminate Hlog;
    injection Hlog as <- <- <-.
  - left. eauto.
  - right. split; [reflexivity|].
    destruct r as [body| |postId body|postId].
    + cbv zeta in Hr. destruct Hr as (-> & -> & _). reflexivity.
    + destruct Hr as (-> & -> & _). reflexivity.
    + destruct Hr as (oid & f & u & _ & _ & _ & -> & -> & _). reflexivity.
    + destruct Hr as (oid & f & Hid & Hl & -> & -> & _). eauto 6.
Qed.

Lemma X2_log_entry_matches_response_witness :
  (level_info = level_error /\
   responses (events (handler (DELETE_posts (showObjectId 7)) blogWorld))
   = [(500, PPost (mkDocument 7 (Text "T") (Text "C")))] /\
   exists e, PPost (mkDocument 7 (Text "T") (Text "C")) = PError e) \/
  (level_info = level_info /\
   responses (events (handler (DELETE_posts (showObjectId 7)) blogWorld))
   = [(204, PEmpty)] /\
   exists oid f,
     castObjectId (showObjectId 7) = Some oid /\
     collection blogWorld !! oid = Some f /\
     PPost (mkDocument 7 (Text "T") (Text "C")) = PPost (document oid f)).
Proof.
  apply (X2_log_entry_matches_response (DELETE_posts (showObjectId 7)) blogWorld
           level_info "Пост удален:" (PPost (mkDocument 7 (Text "T") (Text "C")))).
  reflexivity.
Defined.

(** X3: a request that is not answered with its route's success status (so:
    answered 400, 404 or 500) leaves the collection exactly as it was. *)
Theorem X3_no_success_no_change
    (r : Request) (w : World) (c : N) (b : Payload) :
  responses (events (handler r w)) = [(c, b)] ->
  c <> successStatus r ->
  collection (serve r w) = collection w.
Proof.
  destruct (handler_cases r w)
    as [(e & m & He & Hev & Hc)
       |[(Hn & oid & Ht & _ & Hev & Hc)|(Hn & b' & m & p & Hev & _)]];
    rewrite Hev; cbn; intros [= <- <-] Hne; [exact Hc|exact Hc|].
  now destruct Hne.
Qed.

Lemma X3_no_success_no_change_witness :
  collection (serve (PUT_posts (showObjectId 7) bodyBadTitle) blogWorld)
  = collection blogWorld.
Proof.
  apply (X3_no_success_no_change (PUT_posts (showObjectId 7) bodyBadTitle) blogWorld
           400 (PError (CastError "title")));
    [reflexivity|discriminate].
Defined.

(** X4: [GET /posts] never changes the collection or the identifier
    generator, whether the store answers or fails. *)
Theorem X4_get_posts_is_read_only (w : World) :
  collection (serve GET_posts w) = collection w /\
  objectIdCounter (serve GET_posts w) = objectIdCounter w.
Proof.
  unfold serve. rewrite app_get_posts_eq.
  destruct (nextFault w); split; reflexivity.
Qed.

(** X5: [PUT /posts/{id}] never creates and never removes a post: the set of
    stored identifiers is the same after as before, for every id, body and
    world (the update is no upsert). *)
Theorem X5_put_keeps_the_set_of_ids (postId : string) (body : Body) (w : World) :
  dom (collection (serve (PUT_posts postId body) w)) = dom (collection w).
Proof.
  destruct (handler_cases (PUT_posts postId body) w)
    as [(e & m & _ & _ & Hc)
       |[(_ & oid & _ & _ & _ & Hc)|(_ & b & m & p & _ & Hr)]];
    [now rewrite Hc|now rewrite Hc|].
  destruct Hr as (oid & f & u & _ & Hl & _ & _ & _ & ->).
  rewrite dom_insert_L. apply subseteq_union_1_L.
  apply singleton_subseteq_l, elem_of_dom. eauto.
Qed.

(** X6: a stored post other than the one a request addresses is never
    touched by it: whatever the request and its outcome, the post is still
    stored, with the same fields. *)
Theorem X6_other_posts_are_untouched
    (r : Request) (w : World) (oid : ObjectId) (f : Fields) :
  collection w !! oid = Some f ->
  targetOf r <> Some oid ->
  collection (serve r w) !! oid = Some f.
Proof.
  intros Hl Hne.
  destruct (handler_cases r w)
    as [(e & m & _ & _ & Hc)
       |[(_ & oid' & _ & _ & _ & Hc)|(_ & b & m & p & _ & Hr)]];
    [now rewrite Hc|now rewrite Hc|].
  destruct r as [body| |postId body|postId].
  - cbv zeta in Hr. destruct Hr as (_ & _ & _ & Hfresh & ->).
    rewrite lookup_insert_ne; [exact Hl|]. intros <-. congruence.
  - destruct Hr as (_ & _ & ->). exact Hl.
  - destruct Hr as (oid' & f' & u & Hid & _ & _ & _ & _ & ->).
    rewrite lookup_insert_ne; [exact Hl|]. intros <-. now apply Hne.
  - destruct Hr as (oid' & f' & Hid & _ & _ & _ & ->).
    rewrite lookup_delete_ne; [exact Hl|]. intros <-. now apply Hne.
Qed.

Lemma X6_other_posts_are_untouched_witness :
  collection (serve (DELETE_posts (showObjectId 9)) blogWorld) !! 7
  = Some (mkFields (Text "T") (Text "C")).
Proof.
  apply (X6_other_posts_are_untouched (DELETE_posts (showObjectId 9)) blogWorld 7);
    [reflexivity|discriminate].
Defined.

Lemma applySet_idempotent (u : SetUpdate) (f : Fields) :
  applySet u (applySet u f) = applySet u f.
Proof. destruct u as [[t|] [c|]]; reflexivity. Qed.

(** X7: [PUT /posts/{id}] with a body of plain fields is idempotent: sent a
    second time (the store answering both times) it gets the same response
    and leaves the collection as the first one left it. *)
Theorem X7_put_twice_is_put_once (postId : string) (body : Body) (w : World) :
  storeAnswers 2 w = true ->
  responses (events (handler (PUT_posts postId body) (serve (PUT_posts postId body) w)))
  = responses (events (handler (PUT_posts postId body) w)) /\
  collection (serve (PUT_posts postId body) (serve (PUT_posts postId body) w))
  = collection (serve (PUT_posts postId body) w).
Proof.
  intros Hans.
  apply (storeAnswers_serve 1 (PUT_posts postId body)) in Hans as [Hf1 Hans].
  apply storeAnswers_S in Hans as [Hf2 _].
  revert Hf2. unfold serve.
  destruct (castObjectId postId) as [oid|] eqn:Hid.
  2:{ intros _. rewrite !(app_put_malformed postId body _ Hid). split; reflexivity. }
  destruct (castUpdate body) as [u|e] eqn:Hu.
  2:{ intros _. rewrite !(app_put_refused postId body _ oid e Hid Hu).
      split; reflexivity. }
  destruct (collection w !! oid) as [f|] eqn:Hl.
  - rewrite (app_put_found postId body w oid f u Hf1 Hid Hu Hl).
    cbn [world events]. intros Hf2.
    rewrite (app_put_found postId body _ oid (applySet u f) u Hf2 Hid Hu)
      by (cbn; apply lookup_insert_eq).
    rewrite applySet_idempotent. cbn [world events collection setCollection afterCall].
    split; [reflexivity|]. apply insert_insert_eq.
  - rewrite (app_put_missing postId body w oid u Hf1 Hid Hu Hl).
    cbn [world events]. intros Hf2.
    rewrite (app_put_missing postId body _ oid u Hf2 Hid Hu) by exact Hl.
    split; reflexivity.
Qed.

Lemma X7_put_twice_is_put_once_witness :
  responses (events (handler (PUT_posts (showObjectId 7) bodyContentOnly)
                       (serve (PUT_posts (showObjectId 7) bodyContentOnly) blogWorld)))
  = responses (events (handler (PUT_posts (showObjectId 7) bodyContentOnly) blogWorld)) /\
  collection (serve (PUT_posts (showObjectId 7) bodyContentOnly)
                (serve (PUT_posts (showObjectId 7) bodyContentOnly) blogWorld))
  = collection (serve (PUT_posts (showObjectId 7) bodyContentOnly) blogWorld).
Proof.
  apply (X7_put_twice_is_put_once (showObjectId 7) bodyContentOnly blogWorld).
  reflexivity.
Defined.

(** X8: a [DELETE /posts/{id}] that was answered 204 is answered 404 when it
    is sent again (the store answering): the post is gone after the first. *)
Theorem X8_delete_twice_gives_404 (postId : string) (w : World) :
  storeAnswers 2 w = true ->
  responses (events (handler (DELETE_posts postId) w)) = [(204, PEmpty)] ->
  responses (events (handler (DELETE_posts postId) (serve (DELETE_posts postId) w)))
  = [(404, PMessage "Пост не найден")] /\
  collection (serve (DELETE_posts postId) (serve (DELETE_posts postId) w))
  = collection (serve (DELETE_posts postId) w).
Proof.
  intros Hans H204.
  apply (storeAnswers_serve 1 (DELETE_posts postId)) in Hans as [Hf1 Hans].
  apply storeAnswers_S in Hans as [Hf2 _].
  destruct (handler_cases (DELETE_posts postId) w)
    as [(e & m & _ & Hev & _)
       |[(_ & oid & _ & _ & Hev & _)|(_ & b & m & p & _ & Hr)]];
    [rewrite Hev in H204; discriminate H204
    |rewrite Hev in H204; discriminate H204|].
  destruct Hr as (oid & f & Hid & Hl & _ & _ & Hc).
  assert (Hgone : collection (serve (DELETE_posts postId) w) !! oid = None)
    by (rewrite Hc; apply lookup_delete_eq).
  unfold serve at 2.
  rewrite (app_delete_missing postId _ oid Hf2 Hid Hgone).
  split; reflexivity.
Qed.

Lemma X8_delete_twice_gives_404_witness :
  responses (events (handler (DELETE_posts (showObjectId 7))
                       (serve (DELETE_posts (showObjectId 7)) blogWorld)))
  = [(404, PMessage "Пост не найден")] /\
  collection (serve (DELETE_posts (showObjectId 7))
                (serve (DELETE_posts (showObjectId 7)) blogWorld))
  = collection (serve (DELETE_posts (showObjectId 7)) blogWorld).
Proof.
  apply (X8_delete_twice_gives_404 (showObjectId 7) blogWorld); reflexivity.
Defined.

(** X9: when [POST /posts] answers 201 with a post, that post was stored
    under an identifier that was not in use, every other post is as before
    (the collection is one post larger), and each field of the post is the
    cast of what the body supplied for it, or missing when the body omitted
    it: any subset of the two fields is accepted. *)
Theorem X9_created_post_is_the_body_cast
    (body : Body) (w : World) (post : Document) :
  responses (events (handler (POST_posts body) w)) = [(201, PPost post)] ->
  collection w !! _id post = None /\
  collection (serve (POST_posts body) w)
  = <[_id post := mkFields (title post) (content post)]> (collection w) /\
  size (collection (serve (POST_posts body) w)) = S (size (collection w)) /\
  (forall j, body_title body = Some j -> castString j = Some (title post)) /\
  (body_title body = None -> title post = Missing) /\
  (forall j, body_content body = Some j -> castString j = Some (content post)) /\
  (body_content body = None -> content post = Missing).
Proof.
  destruct (handler_cases (POST_posts body) w)
    as [(e & m & _ & Hev & _)
       |[(_ & oid & Ht & _)|(_ & b & m & p & Hev & Hr)]];
    [rewrite Hev; discriminate|discriminate Ht|].
  cbv zeta in Hr. destruct Hr as (-> & _ & Hvalid & Hfresh & Hc).
  rewrite Hev. cbn. intros [= Hpost]. subst post. rewrite newPost_id.
  pose proof (newPost_fields (objectIdCounter w) body) as (Ht & Hct & Ht1 & Ht2 & Hc1 & Hc2).
  cbv zeta in *. rewrite Hvalid in Ht, Hct.
  split; [exact Hfresh|]. split; [exact Hc|].
  split; [rewrite Hc; now apply map_size_insert_None|].
  split; [|split; [exact Ht2|split; [|exact Hc2]]].
  - intros j Hj. destruct (castString j) as [f|] eqn:E.
    + f_equal. symmetry. eapply Ht1; eauto.
    + destruct (proj2 Ht). eauto.
  - intros j Hj. destruct (castString j) as [f|] eqn:E.
    + f_equal. symmetry. eapply Hc1; eauto.
    + destruct (proj2 Hct). eauto.
Qed.

Lemma X9_created_post_is_the_body_cast_witness :
  collection blogWorld !! 8 = None /\
  collection (serve (POST_posts bodyContentOnly) blogWorld)
  = <[8 := mkFields Missing (Text "new")]> (collection blogWorld) /\
  size (collection (serve (POST_posts bodyContentOnly) blogWorld))
  = S (size (collection blogWorld)) /\
  (forall j, body_title bodyContentOnly = Some j -> castString j = Some Missing) /\
  (body_title bodyContentOnly = None -> Missing = Missing) /\
  (forall j, body_content bodyContentOnly = Some j -> castString j = Some (Text "new")) /\
  (body_content bodyContentOnly = None -> Text "new" = Missing).
Proof.
  apply (X9_created_post_is_the_body_cast bodyContentOnly blogWorld
           (mkDocument 8 Missing (Text "new"))).
  reflexivity.
Defined.

(** X10: [DELETE /posts/{id}] with an id that is not an identifier (the
    store answering) is answered 500, not 404: the cast error raised for the
    path [_id] reaches the [catch] block, is sent as the body and logged at
    error level, and nothing is removed. *)
Theorem X10_delete_malformed_id_gives_500 (postId : string) (w : World) :
  castObjectId postId = None ->
  nextFault w = None ->
  responses (events (handler (DELETE_posts postId) w))
  = [(500, PError (CastError "_id"))] /\
  (exists m, logEntries (events (handler (DELETE_posts postId) w))
             = [(level_error, m, PError (CastError "_id"))]) /\
  collection (serve (DELETE_posts postId) w) = collection w.
Proof.
  intros Hid Hf. unfold serve. rewrite (app_delete_malformed postId w Hid).
  cbn. eauto.
Qed.

Lemma X10_delete_malformed_id_gives_500_witness :
  responses (events (handler (DELETE_posts "7") blogWorld))
  = [(500, PError (CastError "_id"))] /\
  (exists m, logEntries (events (handler (DELETE_posts "7") blogWorld))
             = [(level_error, m, PError (CastError "_id"))]) /\
  collection (serve (DELETE_posts "7") blogWorld) = collection blogWorld.
Proof.
  apply (X10_delete_malformed_id_gives_500 "7" blogWorld); reflexivity.
Defined.

(** X11: [POST /posts] with a body in which a supplied field cannot be cast
    is answered 400 with a validation error that names exactly the fields
    that cannot be cast, and stores nothing, also when the other field is
    fine and whether or not the store can be reached: the post is refused
    before the store is contacted. *)
Theorem X11_post_with_uncastable_field_stores_nothing (body : Body) (w : World) :
  (exists j, body_title body = Some j /\ castString j = None) \/
  (exists j, body_content body = Some j /\ castString j = None) ->
  exists paths,
    responses (events (handler (POST_posts body) w))
    = [(400, PError (ValidationError paths))] /\
    (In "title" paths <-> exists j, body_title body = Some j /\ castString j = None) /\
    (In "content" paths <-> exists j, body_content body = Some j /\ castString j = None) /\
    collection (serve (POST_posts body) w) = collection w /\
    faults (serve (POST_posts body) w) = faults w.
Proof.
  intros Hbad.
  pose proof (newPost_fields (objectIdCounter w) body) as (Ht & Hc & _).
  cbv zeta in Ht, Hc.
  exists (np_invalid (newPost (objectIdCounter w) body)).
  unfold serve. rewrite app_post_posts_eq. cbv zeta. unfold save.
  destruct (np_invalid (newPost (objectIdCounter w) body)) as [|p ps] eqn:Hv.
  - destruct Hbad as [H|H]; [apply Ht in H|apply Hc in H]; destruct H.
  - cbn. auto.
Qed.

Lemma X11_post_with_uncastable_field_stores_nothing_witness :
  exists paths,
    responses (events (handler (POST_posts bodyBadTitle) downWorld))
    = [(400, PError (ValidationError paths))] /\
    (In "title" paths <->
     exists j, body_title bodyBadTitle = Some j /\ castString j = None) /\
    (In "content" paths <->
     exists j, body_content bodyBadTitle = Some j /\ castString j = None) /\
    collection (serve (POST_posts bodyBadTitle) downWorld) = collection downWorld /\
    faults (serve (POST_posts bodyBadTitle) downWorld) = faults downWorld.
Proof.
  apply (X11_post_with_uncastable_field_stores_nothing bodyBadTitle downWorld).
  left. exists (JObj None). split; reflexivity.
Defined.

(** Which key the update cast reports. *)
Lemma castUpdate_Throw (body : Body) :
  (exists j, body_title body = Some j /\ castString j = None) \/
  (exists j, body_content body = Some j /\ castString j = None) ->
  exists path,
    castUpdate body = Throw (CastError path) /\
    (path = "title" \/ path = "content") /\
    (path = "title" ->
     (exists j, body_title body = Some j /\ castString j = None) /\
     (body_content_first body = true ->
      ~ exists j, body_content body = Some j /\ castString j = None)) /\
    (path = "content" ->
     (exists j, body_content body = Some j /\ castString j = None) /\
     (body_content_first body = false ->
      ~ exists j, body_title body = Some j /\ castString j = None)).
Proof.
  unfold castUpdate, castSet. intros Hbad.
  destruct (body_content_first body),
    (body_title body) as [jt|], (body_content body) as [jc|];
    try destruct (castString jt) as [ft|] eqn:Ht;
    try destruct (castString jc) as [fc|] eqn:Hc;
    try (exfalso; destruct Hbad as [(j & E & E')|(j & E & E')]; congruence);
    eexists; (split; [reflexivity|]);
    (split; [auto|]);
    (split; intros Hp; try discriminate Hp);
    (split; [eauto|]); intros Hcf; try discriminate Hcf;
    intros (j & E & E'); congruence.
Qed.

(** X12: [PUT /posts/{id}] with a well-formed id and a body in which a
    supplied field cannot be cast is answered 400 with a cast error for the
    first such field in the order the body writes its keys, and changes
    nothing: a castable field sent along with it is not applied, whether or
    not the post exists and whether or not the store can be reached. *)
Theorem X12_put_with_uncastable_field_changes_nothing
    (postId : string) (oid : ObjectId) (body : Body) (w : World) :
  castObjectId postId = Some oid ->
  (exists j, body_title body = Some j /\ castString j = None) \/
  (exists j, body_content body = Some j /\ castString j = None) ->
  exists path,
    responses (events (handler (PUT_posts postId body) w))
    = [(400, PError (CastError path))] /\
    (path = "title" \/ path = "content") /\
    (path = "title" ->
     (exists j, body_title body = Some j /\ castString j = None) /\
     (body_content_first body = true ->
      ~ exists j, body_content body = Some j /\ castString j = None)) /\
    (path = "content" ->
     (exists j, body_content body = Some j /\ castString j = None) /\
     (body_content_first body = false ->
      ~ exists j, body_title body = Some j /\ castString j = None)) /\
    collection (serve (PUT_posts postId body) w) = collection w /\
    faults (serve (PUT_posts postId body) w) = faults w.
Proof.
  intros Hid Hbad.
  destruct (castUpdate_Throw body Hbad) as (path & Hu & Hpath & Ht & Hc).
  exists path. unfold serve.
  rewrite (app_put_refused postId body w oid _ Hid Hu). cbn. auto 6.
Qed.

Lemma X12_put_with_uncastable_field_changes_nothing_witness :
  exists path,
    responses (events (handler (PUT_posts (showObjectId 7) bodyBothBadContentFirst)
                         blogWorld))
    = [(400, PError (CastError path))] /\
    (path = "title" \/ path = "content") /\
    (path = "title" ->
     (exists j, body_title bodyBothBadContentFirst = Some j /\ castString j = None) /\
     (body_content_first bodyBothBadContentFirst = true ->
      ~ exists j, body_content bodyBothBadContentFirst = Some j /\ castString j = None)) /\
    (path = "content" ->
     (exists j, body_content bodyBothBadContentFirst = Some j /\ castString j = None) /\
     (body_content_first bodyBothBadContentFirst = false ->
      ~ exists j, body_title bodyBothBadContentFirst = Some j /\ castString j = None)) /\
    collection (serve (PUT_posts (showObjectId 7) bodyBothBadContentFirst) blogWorld)
    = collection blogWorld /\
    faults (serve (PUT_posts (showObjectId 7) bodyBothBadContentFirst) blogWorld)
    = faults blogWorld.
Proof.
  apply (X12_put_with_uncastable_field_changes_nothing (showObjectId 7) 7
           bodyBothBadContentFirst blogWorld); [reflexivity|].
  left. exists JArr. split; reflexivity.
Defined.

(** ** Runs of requests *)

Lemma countStatus_app (c : N) (l1 l2 : list (N * Payload)) :
  countStatus c (l1 ++ l2) = (countStatus c l1 + countStatus c l2)%nat.
Proof. unfold countStatus. now rewrite filter_app, length_app. Qed.

Lemma serve_size (r : Request) (w : World) :
  (size (collection (serve r w))
   + countStatus 204 (responses (events (handler r w))))%nat
  = (size (collection w)
     + countStatus 201 (responses (events (handler r w))))%nat.
Proof.
  destruct (handler_cases r w)
    as [(e & m & _ & Hev & Hc)
       |[(_ & oid & _ & _ & Hev & Hc)|(_ & b & m & p & Hev & Hr)]];
    rewrite Hev.
  - rewrite Hc. now destruct r.
  - rewrite Hc. now destruct r.
  - destruct r as [body| |postId body|postId].
    + cbv zeta in Hr. destruct Hr as (_ & _ & _ & Hfresh & ->).
      rewrite map_size_insert_None by exact Hfresh.
      replace (countStatus 204 _) with 0%nat by reflexivity.
      replace (countStatus 201 _) with 1%nat by reflexivity. lia.
    + destruct Hr as (_ & _ & ->). reflexivity.
    + destruct Hr as (oid & f & u & _ & Hl & _ & _ & _ & ->).
      rewrite map_size_insert_Some by eauto. reflexivity.
    + destruct Hr as (oid & f & _ & Hl & _ & _ & ->).
      rewrite map_size_delete_Some by eauto.
      assert (size (collection w) <> 0%nat).
      { intros H0. apply map_size_empty_inv in H0. rewrite H0 in Hl.
        now rewrite lookup_empty in Hl. }
      replace (countStatus 204 _) with 1%nat by reflexivity.
      replace (countStatus 201 _) with 0%nat by reflexivity. lia.
Qed.

(** X13: over any run of requests, from any world, the number of stored
    posts changes by the number of 201 responses minus the number of 204
    responses: posts come into the collection only through a [POST] answered
    201 and leave it only through a [DELETE] answered 204. *)
Theorem X13_posts_are_counted_by_201_and_204 (rs : list Request) (w : World) :
  (size (collection (serveAll rs w)) + countStatus 204 (runResponses rs w))%nat
  = (size (collection w) + countStatus 201 (runResponses rs w))%nat.
Proof.
  revert w. induction rs as [|r rs IH]; intros w; [reflexivity|].
  cbn [serveAll fold_left runResponses]. fold (serveAll rs (serve r w)).
  rewrite !countStatus_app.
  pose proof (serve_size r w). pose proof (IH (serve r w)). lia.
Qed.

(** X14: a post that [PUT /posts/{id}] returned with status 200 is what a
    [GET /posts] that follows (the store answering) lists under that id:
    the listing contains the returned post, and it is the only listed post
    with its id. *)
Theorem X14_get_after_put_lists_the_returned_post
    (postId : string) (body : Body) (w : World) (post : Document) :
  responses (events (handler (PUT_posts postId body) w)) = [(200, PPost post)] ->
  nextFault (serve (PUT_posts postId body) w) = None ->
  exists posts,
    responses (events (handler GET_posts (serve (PUT_posts postId body) w)))
    = [(200, PPosts posts)] /\
    post ∈ posts /\
    forall post', post' ∈ posts -> _id post' = _id post -> post' = post.
Proof.
  intros Hput Hf.
  destruct (handler_cases (PUT_posts postId body) w)
    as [(e & m & _ & Hev & _)
       |[(_ & oid & _ & _ & Hev & _)|(_ & b & m & p & Hev & Hr)]];
    rewrite Hev in Hput; try discriminate Hput.
  destruct Hr as (oid & f & u & _ & _ & _ & -> & _ & Hc).
  cbn in Hput. injection Hput as <-.
  exists (find_docs (collection (serve (PUT_posts postId body) w))).
  rewrite app_get_posts_eq, Hf. split; [reflexivity|].
  rewrite Hc. split.
  - apply find_docs_lookup, lookup_insert_eq.
  - intros post' Hin Hid. apply elem_of_find_docs in Hin.
    rewrite Hid in Hin. cbn in Hin. rewrite lookup_insert_eq in Hin.
    destruct post' as [i t c]. cbn in *.
    injection Hin as <- <-. subst i. reflexivity.
Qed.

Lemma X14_get_after_put_lists_the_returned_post_witness :
  exists posts,
    responses (events (handler GET_posts
                         (serve (PUT_posts (showObjectId 7) bodyContentOnly) blogWorld)))
    = [(200, PPosts posts)] /\
    mkDocument 7 (Text "T") (Text "new") ∈ posts /\
    forall post', post' ∈ posts ->
                  _id post' = _id (mkDocument 7 (Text "T") (Text "new")) ->
                  post' = mkDocument 7 (Text "T") (Text "new").
Proof.
  apply (X14_get_after_put_lists_the_returned_post
           (showObjectId 7) bodyContentOnly blogWorld
           (mkDocument 7 (Text "T") (Text "new"))); reflexivity.
Defined.

(** ** Which handler a request reaches *)

Lemma segments_noSlash (s : string) : noSlash s = true -> segments s = [s].
Proof.
  induction s as [|c s IH]; [reflexivity|].
  cbn. destruct (Ascii.eqb c "/"); [discriminate|].
  cbn. intros H. now rewrite IH.
Qed.

(** X15: a request for [/posts/<id>], where [<id>] is any non-empty segment
    that [decodeURIComponent] accepts, reaches the update handler when its
    method is PUT, the delete handler when its method is DELETE, and no
    handler at all under any other method: there is no route that reads or
    creates a single post.  When [<id>] is a segment that cannot be decoded,
    no handler is run under any method: Express answers 400 itself. *)
Theorem X15_item_path_reaches_put_and_delete_only (m : Method) (id : string) :
  noSlash id = true ->
  id <> "" ->
  dispatch appLayers m ("/posts/" ++ id) =
  if decodable id then
    match m with
    | PUT => Some RoutePutPost
    | DELETE => Some RouteDeletePost
    | _ => None
    end
  else Some BadRequest.
Proof.
  intros Hns Hne.
  assert (Hnonempty : String.eqb id "" = false) by now apply String.eqb_neq.
  assert (Hseg : segments ("/posts/" ++ id) = [""; "posts"; id]).
  { simpl. change ("" ++ id) with id. now rewrite segments_noSlash. }
  unfold appLayers, crudLayers, dispatch, matchLayer, matchPath; cbn [app].
  cbn [layer_method layer_path layer_end layer_target].
  rewrite Hseg.
  replace (segments "/posts") with [""; "posts"] by reflexivity.
  replace (segments "/posts/:postId") with [""; "posts"; ":postId"] by reflexivity.
  replace (segments swaggerMount) with ["`"; "api-docs`"] by reflexivity.
  cbn [matchSegments matchSegment]. rewrite Hnonempty.
  destruct (decodable id); destruct m; reflexivity.
Qed.

Lemma X15_item_path_reaches_put_and_delete_only_witness :
  dispatch appLayers GET ("/posts/" ++ showObjectId 7) = None /\
  dispatch appLayers PUT ("/posts/" ++ "%E0%A4%A") = Some BadRequest.
Proof.
  split.
  - apply (X15_item_path_reaches_put_and_delete_only GET (showObjectId 7));
      [reflexivity|discriminate].
  - apply (X15_item_path_reaches_put_and_delete_only PUT "%E0%A4%A");
      [reflexivity|discriminate].
Defined.

Lemma lowerAscii_slash (c : ascii) :
  Ascii.eqb (lowerAscii c) "/" = Ascii.eqb c "/".
Proof. destruct c as [[] [] [] [] [] [] [] []]; reflexivity. Qed.

Lemma lowerAscii_idempotent (c : ascii) : lowerAscii (lowerAscii c) = lowerAscii c.
Proof. destruct c as [[] [] [] [] [] [] [] []]; reflexivity. Qed.

Lemma lowerString_idempotent (s : string) : lowerString (lowerString s) = lowerString s.
Proof.
  induction s as [|c s IH]; [reflexivity|].
  cbn. now rewrite lowerAscii_idempotent, IH.
Qed.

Lemma lowerString_empty (s : string) :
  String.eqb (lowerString s) "" = String.eqb s "".
Proof. now destruct s. Qed.

Lemma segments_lowerString (s : string) :
  segments (lowerString s) = map lowerString (segments s).
Proof.
  induction s as [|c s IH]; [reflexivity|].
  cbn [lowerString segments]. rewrite lowerAscii_slash, IH.
  destruct (Ascii.eqb c "/"); [reflexivity|].
  now destruct (segments s).
Qed.

Lemma lowerAscii_percent (c : ascii) :
  Ascii.eqb (lowerAscii c) "%" = Ascii.eqb c "%".
Proof. destruct c as [[] [] [] [] [] [] [] []]; reflexivity. Qed.

Lemma escapeByte_lowerAscii (h l : ascii) :
  escapeByte (lowerAscii h) (lowerAscii l) = escapeByte h l.
Proof. unfold escapeByte, hexValue. now rewrite !lowerAscii_idempotent. Qed.

Lemma decodableFrom_lowerString (n : nat) :
  forall s due lo hi,
    (String.length s <= n)%nat ->
    decodableFrom due lo hi (lowerString s) = decodableFrom due lo hi s.
Proof.
  induction n as [|n IH]; intros s due lo hi Hlen;
    (destruct s as [|c s1]; [reflexivity|]); cbn in Hlen; [lia|].
  cbn [lowerString]. cbn [decodableFrom]. rewrite lowerAscii_percent.
  destruct (Ascii.eqb c "%").
  - destruct s1 as [|h [|l rest]]; [reflexivity|reflexivity|].
    cbn [lowerString]. rewrite escapeByte_lowerAscii.
    destruct (escapeByte h l) as [b|]; [|reflexivity].
    cbn in Hlen.
    destruct due;
      repeat match goal with
             | |- context [if ?c then _ else _] => destruct c
             end;
      try reflexivity; apply IH; lia.
  - destruct due; [apply IH; lia|reflexivity].
Qed.

Lemma decodable_lowerString (s : string) : decodable (lowerString s) = decodable s.
Proof. unfold decodable. now apply (decodableFrom_lowerString (String.length s)). Qed.

Lemma matchSegment_lowerString (pat seg : string) :
  matchSegment pat (lowerString seg) = matchSegment pat seg.
Proof.
  unfold matchSegment.
  rewrite lowerString_empty, lowerString_idempotent, decodable_lowerString.
  reflexivity.
Qed.

Lemma matchSegments_lowerString (to_end : bool) (pats segs : list string) :
  matchSegments to_end pats (map lowerString segs) = matchSegments to_end pats segs.
Proof.
  revert segs. induction pats as [|p pats IH]; intros segs.
  - destruct segs as [|s [|s' segs]]; cbn; [reflexivity| |reflexivity].
    now rewrite lowerString_empty.
  - destruct segs as [|s segs]; [reflexivity|].
    cbn. now rewrite matchSegment_lowerString, IH.
Qed.

Lemma dispatch_lowerString (stack : list Layer) (m : Method) (path : string) :
  dispatch stack m (lowerString path) = dispatch stack m path.
Proof.
  induction stack as [|l stack IH]; [reflexivity|].
  cbn. unfold matchLayer, matchPath.
  now rewrite segments_lowerString, matchSegments_lowerString, IH.
Qed.

(** X16: routing does not look at the case of the letters of the path: a
    request reaches the same handler, or none, as the request with the same
    method and the path written in lower case. *)
Theorem X16_routing_ignores_letter_case (m : Method) (path : string) :
  dispatch appLayers m path = dispatch appLayers m (lowerString path).
Proof. symmetry. apply dispatch_lowerString. Qed.

(** X17: a request whose path is [/posts], with or without a trailing slash
    and in any letter case, reaches the create handler under POST, the list
    handler under GET and under HEAD, and no handler under any other
    method. *)
Theorem X17_collection_path_reaches_post_and_get_only (m : Method) (path : string) :
  lowerString path = "/posts" \/ lowerString path = "/posts/" ->
  dispatch appLayers m path =
  match m with
  | POST => Some RoutePostPosts
  | GET | HEAD => Some RouteGetPosts
  | _ => None
  end.
Proof.
  intros H. rewrite <- (dispatch_lowerString appLayers m path).
  destruct H as [-> | ->]; destruct m; reflexivity.
Qed.

Lemma X17_collection_path_reaches_post_and_get_only_witness :
  dispatch appLayers HEAD "/Posts/" = Some RouteGetPosts.
Proof.
  apply (X17_collection_path_reaches_post_and_get_only HEAD "/Posts/").
  right. reflexivity.
Defined.

(** X18: deleting a post right after it was created undoes the creation,
    whatever else is stored: when [POST /posts] answered 201 with a post,
    [DELETE /posts/{id}] with that post's id as printed in the response (the
    store answering) is answered 204 and leaves the collection exactly as it
    was before the [POST]. *)
Theorem X18_delete_undoes_create (body : Body) (w : World) (post : Document) :
  responses (events (handler (POST_posts body) w)) = [(201, PPost post)] ->
  _id post < objectIdBound ->
  nextFault (serve (POST_posts body) w) = None ->
  responses (events (handler (DELETE_posts (showObjectId (_id post)))
                       (serve (POST_posts body) w)))
  = [(204, PEmpty)] /\
  collection (serve (DELETE_posts (showObjectId (_id post)))
                (serve (POST_posts body) w))
  = collection w.
Proof.
  intros Hpost Hbound Hf.
  destruct (handler_cases (POST_posts body) w)
    as [(e & m & _ & Hev & _)
       |[(_ & oid & Ht & _)|(_ & b & m & p & Hev & Hr)]];
    [rewrite Hev in Hpost; discriminate Hpost|discriminate Ht|].
  cbv zeta in Hr. destruct Hr as (-> & _ & _ & Hfresh & Hc).
  rewrite Hev in Hpost. cbn in Hpost. injection Hpost as Hpost. subst post.
  rewrite newPost_id in *.
  set (f := mkFields _ _) in Hc.
  assert (Hl : collection (serve (POST_posts body) w) !! objectIdCounter w = Some f)
    by (rewrite Hc; apply lookup_insert_eq).
  pose proof (app_delete_found _ _ (objectIdCounter w) f Hf
                (castObjectId_showObjectId _ Hbound) Hl) as Hdel.
  split; [now rewrite Hdel|].
  unfold serve at 1. rewrite Hdel. cbn [world collection setCollection].
  rewrite Hc. now apply delete_insert_id.
Qed.

Lemma X18_delete_undoes_create_witness :
  responses (events (handler (DELETE_posts (showObjectId 8))
                       (serve (POST_posts bodyTC) blogWorld)))
  = [(204, PEmpty)] /\
  collection (serve (DELETE_posts (showObjectId 8)) (serve (POST_posts bodyTC) blogWorld))
  = collection blogWorld.
Proof.
  apply (X18_delete_undoes_create bodyTC blogWorld (mkDocument 8 (Text "T") (Text "C")));
    reflexivity.
Defined.
